(** * Statistical analysis engine of [excel_pro_master.py] and [report.py]

    A shallow embedding of [StatisticalAnalyzer] (constructor,
    [_calculate_all], [test_normality], [detect_outliers]) and of the length
    check of [parse_input], followed by the properties of the specification
    that concern them.

    Numbers.  A Python [float] is modelled by [float] below: an exact real
    number, or one of the IEEE special values [+inf], [-inf], [nan].
    Arithmetic on finite values is exact (no rounding, no overflow, one
    unsigned zero); the special values follow IEEE 754 as numpy applies it
    with warnings silenced ([warnings.filterwarnings('ignore')]): a division
    by zero yields an infinity or [nan] and never raises. *)

From Stdlib Require Import String Reals Lra Lia ZArith Bool Arith List.
From Stdlib Require Import Sorted Permutation.
From Equations Require Import Equations.
Import ListNotations.

Set Implicit Arguments.

Local Open Scope R_scope.

(* ------------------------------------------------------------------ *)
(** * Floats *)
(* ------------------------------------------------------------------ *)

Inductive float : Type :=
| Fin (r : R)
| PInf
| NInf
| NaN.

Definition is_finite (x : float) : bool :=
  match x with Fin _ => true | _ => false end.

Definition is_nan (x : float) : bool :=
  match x with NaN => true | _ => false end.

(** Boolean comparisons of reals, through the decision procedures of the
    real-number library. *)
Definition Rltb (a b : R) : bool := if Rlt_dec a b then true else false.
Definition Rleb (a b : R) : bool := if Rle_dec a b then true else false.
Definition Reqb (a b : R) : bool := if Req_dec_T a b then true else false.

(** [by_sign r neg zero pos] selects on the sign of [r]. *)
Definition by_sign (A : Type) (r : R) (neg zero pos : A) : A :=
  if Rltb r 0 then neg else if Reqb r 0 then zero else pos.

Definition fneg (x : float) : float :=
  match x with
  | Fin a => Fin (- a)
  | PInf => NInf
  | NInf => PInf
  | NaN => NaN
  end.

Definition fadd (x y : float) : float :=
  match x, y with
  | Fin a, Fin b => Fin (a + b)
  | NaN, _ | _, NaN => NaN
  | PInf, NInf | NInf, PInf => NaN
  | PInf, _ | _, PInf => PInf
  | NInf, _ | _, NInf => NInf
  end.

Definition fsub (x y : float) : float :=
  match x, y with
  | Fin a, Fin b => Fin (a - b)
  | _, _ => fadd x (fneg y)
  end.

Definition fmul (x y : float) : float :=
  match x, y with
  | Fin a, Fin b => Fin (a * b)
  | NaN, _ | _, NaN => NaN
  | PInf, Fin b | Fin b, PInf => by_sign b NInf NaN PInf
  | NInf, Fin b | Fin b, NInf => by_sign b PInf NaN NInf
  | PInf, PInf | NInf, NInf => PInf
  | PInf, NInf | NInf, PInf => NInf
  end.

(** Division; a zero divisor is the positive zero. *)
Definition fdiv (x y : float) : float :=
  match x, y with
  | Fin a, Fin b =>
      if Reqb b 0 then by_sign a NInf NaN PInf else Fin (a / b)
  | NaN, _ | _, NaN => NaN
  | Fin _, (PInf | NInf) => Fin 0
  | PInf, Fin b => if Rltb b 0 then NInf else PInf
  | NInf, Fin b => if Rltb b 0 then PInf else NInf
  | (PInf | NInf), (PInf | NInf) => NaN
  end.

Definition fsqrt (x : float) : float :=
  match x with
  | Fin a => if Rltb a 0 then NaN else Fin (sqrt a)
  | PInf => PInf
  | NInf | NaN => NaN
  end.

Definition fabs (x : float) : float :=
  match x with
  | Fin a => Fin (Rabs a)
  | PInf | NInf => PInf
  | NaN => NaN
  end.

(** [x < y]; false as soon as one side is [nan]. *)
Definition flt (x y : float) : bool :=
  match x, y with
  | Fin a, Fin b => Rltb a b
  | NaN, _ | _, NaN => false
  | NInf, (Fin _ | PInf) => true
  | Fin _, PInf => true
  | _, _ => false
  end.

Definition fgt (x y : float) : bool := flt y x.

(** [x <= y] *)
Definition fle (x y : float) : bool :=
  match x, y with
  | Fin a, Fin b => Rleb a b
  | NaN, _ | _, NaN => false
  | NInf, _ => true
  | _, PInf => true
  | _, _ => false
  end.

(** [x == y] and [x != y] *)
Definition feq (x y : float) : bool :=
  match x, y with
  | Fin a, Fin b => Reqb a b
  | PInf, PInf | NInf, NInf => true
  | _, _ => false
  end.

Definition fne (x y : float) : bool := negb (feq x y).

(** Conversion of Python integers. *)
Definition of_nat (n : nat) : float := Fin (INR n).
Definition of_Z (z : Z) : float := Fin (IZR z).

(** Decimal literals of the source. *)
Definition lit (num : Z) (den : positive) : float :=
  Fin (IZR num / IZR (Zpos den)).

(* ------------------------------------------------------------------ *)
(** * Exceptions *)
(* ------------------------------------------------------------------ *)

(** The exceptions of the source, and the two that only the specification
    names ([InvalidInputError], [DegenerateSampleError]). *)
Inductive exn : Type :=
| ValueError
| OverflowError
| ZeroDivisionError
| IndexError
| FileNotFoundError
| InvalidInputError
| DegenerateSampleError.

Inductive result (A : Type) : Type :=
| Ok (a : A)
| Raise (e : exn).

Arguments Ok {A} a.
Arguments Raise {A} e.

Definition bind {A B : Type} (m : result A) (k : A -> result B) : result B :=
  match m with
  | Ok a => k a
  | Raise e => Raise e
  end.

Notation "x <- m ;; k" := (bind m (fun x => k))
  (at level 61, m at next level, right associativity).

Definition is_ok {A : Type} (m : result A) : bool :=
  match m with Ok _ => true | Raise _ => false end.

(** [try: m except: None] *)
Definition try_except {A : Type} (m : result A) : option A :=
  match m with Ok a => Some a | Raise _ => None end.

(* ------------------------------------------------------------------ *)
(** * numpy *)
(* ------------------------------------------------------------------ *)

Module np.

(** [np.sum] *)
Definition sum (l : list float) : float := fold_left fadd l (Fin 0).

(** [np.mean]: the sum over the length; [nan] for an empty array. *)
Definition mean (l : list float) : float :=
  fdiv (sum l) (of_nat (length l)).

(** [np.var(l, ddof)]: squared deviations from the mean, summed and
    divided by [max(n - ddof, 0)]. *)
Definition var (ddof : nat) (l : list float) : float :=
  let m := mean l in
  fdiv (sum (map (fun x => fmul (fsub x m) (fsub x m)) l))
       (of_nat (length l - ddof)).

(** [np.std(l, ddof)] *)
Definition std (ddof : nat) (l : list float) : float :=
  fsqrt (var ddof l).

(** [np.minimum] and [np.maximum] of two values: [nan] wins. *)
Definition minimum (x y : float) : float :=
  if is_nan x || is_nan y then NaN else if flt y x then y else x.

Definition maximum (x y : float) : float :=
  if is_nan x || is_nan y then NaN else if flt x y then y else x.

(** [np.min], [np.max]: a zero-size array raises [ValueError]. *)
Definition min (l : list float) : result float :=
  match l with
  | [] => Raise ValueError
  | x :: t => Ok (fold_left minimum t x)
  end.

Definition max (l : list float) : result float :=
  match l with
  | [] => Raise ValueError
  | x :: t => Ok (fold_left maximum t x)
  end.

(** [np.argmax]: index of the first maximum, or of the first [nan]. *)
Fixpoint argmax_from (best : float) (bi i : nat) (l : list float) : nat :=
  match l with
  | [] => bi
  | x :: t =>
      if is_nan best then bi
      else if is_nan x || flt best x then argmax_from x i (S i) t
      else argmax_from best bi (S i) t
  end.

Definition argmax (l : list float) : result nat :=
  match l with
  | [] => Raise ValueError
  | x :: t => Ok (argmax_from x 0 1 t)
  end.

(** [np.argmin]: index of the first minimum, or of the first [nan]. *)
Fixpoint argmin_from (best : float) (bi i : nat) (l : list float) : nat :=
  match l with
  | [] => bi
  | x :: t =>
      if is_nan best then bi
      else if is_nan x || flt x best then argmin_from x i (S i) t
      else argmin_from best bi (S i) t
  end.

Definition argmin (l : list float) : result nat :=
  match l with
  | [] => Raise ValueError
  | x :: t => Ok (argmin_from x 0 1 t)
  end.

(** [np.sort]: ascending, [nan] last. *)
Definition sort_le (x y : float) : bool :=
  if is_nan y then true else if is_nan x then false else fle x y.

Fixpoint insert (x : float) (l : list float) : list float :=
  match l with
  | [] => [x]
  | y :: t => if sort_le x y then x :: y :: t else y :: insert x t
  end.

Definition sort (l : list float) : list float :=
  fold_right insert [] l.

(** [np.diff] *)
Fixpoint diff (l : list float) : list float :=
  match l with
  | x :: ((y :: _) as t) => fsub y x :: diff t
  | _ => []
  end.

(** [np.where(mask)[0]]: the indices at which the mask holds. *)
Fixpoint where_from (i : nat) (mask : list bool) : list nat :=
  match mask with
  | [] => []
  | b :: t => if b then i :: where_from (S i) t else where_from (S i) t
  end.

Definition where_ (mask : list bool) : list nat := where_from 0 mask.

(** [a[mask]]: the values at which the mask holds. *)
Fixpoint select (A : Type) (a : list A) (mask : list bool) : list A :=
  match a, mask with
  | x :: a', b :: m' => if b then x :: select a' m' else select a' m'
  | _, _ => []
  end.

(** [np.sum(mask)], [len(np.where(mask)[0])] *)
Definition count (mask : list bool) : nat :=
  length (filter (fun b => b) mask).

(** [np.log10] *)
Definition log10 (x : float) : float :=
  match x with
  | Fin a => by_sign a NaN NInf (Fin (ln a / ln 10))
  | PInf => PInf
  | NInf | NaN => NaN
  end.

(** [np.linspace(a, b, k + 1)]: the [k + 1] edges of [k] equal bins. *)
Definition linspace (a b : float) (k : nat) : list float :=
  map (fun i => fadd a (fmul (of_nat i) (fdiv (fsub b a) (of_nat k))))
      (seq 0 (S k)).

(** Occupancy of the [i]-th of [k] bins: half-open, the last one closed. *)
Definition in_bin (edges : list float) (k i : nat) (x : float) : bool :=
  fle (nth i edges NaN) x &&
  (if Nat.eqb (S i) k then fle x (nth (S i) edges NaN)
   else flt x (nth (S i) edges NaN)).

(** [np.histogram(data, bins=k)] for an integer [k]: the range is
    [min(data), max(data)] ([0, 1] for no data), widened by one half on
    each side when the two coincide; a range that is not finite, or a bin
    count below one, raises [ValueError]. *)
Definition histogram (data : list float) (k : Z)
  : result (list Z * list float) :=
  if (k <? 1)%Z then Raise ValueError else
  lo <- (match data with [] => Ok (Fin 0) | _ => min data end) ;;
  hi <- (match data with [] => Ok (Fin 1) | _ => max data end) ;;
  if negb (is_finite lo && is_finite hi) then Raise ValueError else
  let lo' := if feq lo hi then fsub lo (Fin (1/2)) else lo in
  let hi' := if feq lo hi then fadd hi (Fin (1/2)) else hi in
  let kn := Z.to_nat k in
  let edges := linspace lo' hi' kn in
  let observed :=
    map (fun i => Z.of_nat (length (filter (in_bin edges kn i) data)))
        (seq 0 kn) in
  Ok (observed, edges).

End np.

(** Python's [int(x)] on a float: truncation toward zero; [nan] and the
    infinities raise. *)
Definition Rtrunc (r : R) : Z :=
  if Rltb r 0 then Zceil r else Zfloor r.

Definition py_int (x : float) : result Z :=
  match x with
  | Fin r => Ok (Rtrunc r)
  | NaN => Raise ValueError
  | PInf | NInf => Raise OverflowError
  end.

(** Python's [x / y] on Python numbers: a zero divisor raises. *)
Definition py_div (x y : float) : result float :=
  if feq y (Fin 0) then Raise ZeroDivisionError else Ok (fdiv x y).

(* ------------------------------------------------------------------ *)
(** * Dictionaries *)
(* ------------------------------------------------------------------ *)

(** A Python [dict] with string keys, in insertion order. *)
Definition dict (V : Type) : Type := list (string * V).

Fixpoint dict_get (V : Type) (d : dict V) (k : string) : option V :=
  match d with
  | [] => None
  | (k', v) :: t => if String.eqb k k' then Some v else dict_get t k
  end.

(** [d[k] = v] *)
Fixpoint dict_set (V : Type) (d : dict V) (k : string) (v : V) : dict V :=
  match d with
  | [] => [(k, v)]
  | (k', v') :: t =>
      if String.eqb k k' then (k, v) :: t else (k', v') :: dict_set t k v
  end.

Definition keys (V : Type) (d : dict V) : list string := map fst d.

(* ------------------------------------------------------------------ *)
(** * Routines of numpy and scipy taken as given *)
(* ------------------------------------------------------------------ *)

(** The quantile, distribution and shape routines the analyzer calls, of
    which only the signature matters to the analyzer's own logic. *)
Record Library : Type := {
  (** [np.median(a)] *)
  median : list float -> float;
  (** [np.percentile(a, q)] *)
  percentile : list float -> float -> float;
  (** [stats.skew(a)] *)
  skew : list float -> float;
  (** [stats.kurtosis(a, fisher=True)] *)
  kurtosis : list float -> float;
  (** [stats.hmean(a)], [stats.gmean(a)] *)
  hmean : list float -> float;
  gmean : list float -> float;
  (** [stats.t.ppf(q, df)] *)
  t_ppf : float -> float -> float;
  (** [stats.chi2.ppf(q, df)], [stats.chi2.cdf(x, df)] *)
  chi2_ppf : float -> float -> float;
  chi2_cdf : float -> float -> float;
  (** [norm.cdf(x)], the standard normal distribution function *)
  norm_cdf : float -> float;
  (** [shapiro(a)], [kstest(a, 'norm', args=(loc, scale))]:
      statistic and p-value, or an exception *)
  shapiro : list float -> result (float * float);
  kstest_norm : list float -> float -> float -> result (float * float)
}.

(** [norm.cdf(x, loc, scale)]: standardises, [nan] unless [scale > 0]. *)
Definition norm_cdf3 (lib : Library) (x loc scale : float) : float :=
  if fgt scale (Fin 0) then norm_cdf lib (fdiv (fsub x loc) scale) else NaN.

(* ------------------------------------------------------------------ *)
(** * [StatisticalAnalyzer] *)
(* ------------------------------------------------------------------ *)

(** The [results] dictionary of the analyzer, one field per key. *)
Module res.
Record t : Type := mk {
  mean : float;
  std : float;
  std_pop : float;
  variance : float;
  variance_pop : float;
  min : float;
  max : float;
  range : float;
  median : float;
  q1 : float;
  q3 : float;
  skewness : float;
  kurtosis : float;
  excess_kurtosis : float;
  mean_harmonic : option float;
  mean_geometric : option float;
  se : float;
  cv : float;
  ci_mean_lower : float;
  ci_mean_upper : float;
  ci_std_lower : float;
  ci_std_upper : float
}.
End res.

Record StatisticalAnalyzer : Type := {
  data : list float;
  n : nat;
  results : res.t
}.

Section Analyzer.

Variable lib : Library.

(** [np.all(data > 0)] *)
Definition all_positive (data : list float) : bool :=
  forallb (fun x => fgt x (Fin 0)) data.

(** [data[data > 0]] *)
Definition positive_part (data : list float) : list float :=
  np.select data (map (fun x => fgt x (Fin 0)) data).

(** The significance level of the confidence intervals:
    [alpha = 1 - confidence_level] with [confidence_level = 0.95]. *)
Definition ci_alpha : float := fsub (Fin 1) (lit 95 100).

(** [StatisticalAnalyzer._calculate_all] *)
Definition _calculate_all (data : list float) (n : nat) : result res.t :=
  let mean := np.mean data in
  let std := np.std 1 data in
  let std_pop := np.std 0 data in
  let variance := np.var 1 data in
  let variance_pop := np.var 0 data in
  min <- np.min data ;;
  max <- np.max data ;;
  let range := fsub max min in
  let median := median lib data in
  let q1 := percentile lib data (Fin 25) in
  let q3 := percentile lib data (Fin 75) in
  let skewness := skew lib data in
  let kurtosis := kurtosis lib data in
  let excess_kurtosis := kurtosis in
  let mean_harmonic :=
    if all_positive data then Some (hmean lib (positive_part data))
    else None in
  let mean_geometric :=
    if all_positive data then Some (gmean lib (positive_part data))
    else None in
  let se := fdiv std (fsqrt (of_nat n)) in
  let cv :=
    if fne mean (Fin 0) then fmul (fdiv std mean) (Fin 100) else Fin 0 in
  let alpha := ci_alpha in
  let t_critical :=
    t_ppf lib (fsub (Fin 1) (fdiv alpha (Fin 2))) (of_Z (Z.of_nat n - 1)) in
  let ci_mean_lower := fsub mean (fmul t_critical se) in
  let ci_mean_upper := fadd mean (fmul t_critical se) in
  let chi2_lower :=
    chi2_ppf lib (fsub (Fin 1) (fdiv alpha (Fin 2)))
             (of_Z (Z.of_nat n - 1)) in
  let chi2_upper :=
    chi2_ppf lib (fdiv alpha (Fin 2)) (of_Z (Z.of_nat n - 1)) in
  let ci_std_lower :=
    fsqrt (fdiv (fmul (of_Z (Z.of_nat n - 1)) variance) chi2_lower) in
  let ci_std_upper :=
    fsqrt (fdiv (fmul (of_Z (Z.of_nat n - 1)) variance) chi2_upper) in
  Ok (res.mk mean std std_pop variance variance_pop min max range median
             q1 q3 skewness kurtosis excess_kurtosis mean_harmonic
             mean_geometric se cv ci_mean_lower ci_mean_upper
             ci_std_lower ci_std_upper).

(** [StatisticalAnalyzer.__init__]: stores the data and its length, then
    computes every statistic; no check of the length or of the values. *)
Definition __init__ (data : list float) : result StatisticalAnalyzer :=
  let n := length data in
  results <- _calculate_all data n ;;
  Ok {| data := data; n := n; results := results |}.

End Analyzer.

(* ------------------------------------------------------------------ *)
(** * [test_normality] *)
(* ------------------------------------------------------------------ *)

(** One entry of the dictionary returned by [test_normality]; the constant
    display label ['name'] of each entry is not represented. *)
Inductive normality_entry : Type :=
| PValueTest (statistic p_value : float) (is_normal : bool)
| RomanovskyTest (statistic : float) (critical : Z) (is_normal : bool)
| Chi2Test (statistic p_value : float) (df : Z) (is_normal : bool)
| SmirnovTest (statistic critical_value : float) (is_normal : bool).

(** Sturges' rule as the chi-square test applies it:
    [k = int(1 + 3.322 * np.log10(n)); k = max(5, min(k, 20))]. *)
Definition sturges_bins (n : nat) : result Z :=
  k <- py_int (fadd (Fin 1) (fmul (lit 3322 1000) (np.log10 (of_nat n)))) ;;
  Ok (Z.max 5 (Z.min k 20)).

(** [l[1] += l[0]; l = l[1:]] *)
Definition fold_first (A : Type) (add : A -> A -> A) (l : list A)
  : result (list A) :=
  match l with
  | a0 :: a1 :: t => Ok (add a1 a0 :: t)
  | _ => Raise IndexError
  end.

(** [l[idx-1] += l[idx]; l = np.delete(l, idx)], called with [idx >= 1] *)
Fixpoint fold_at (A : Type) (add : A -> A -> A) (idx : nat) (l : list A)
  {struct l} : result (list A) :=
  match l with
  | [] => Raise IndexError
  | a :: t =>
      match idx with
      | 0%nat => Raise IndexError
      | 1%nat =>
          match t with
          | b :: t' => Ok (add a b :: t')
          | [] => Raise IndexError
          end
      | S i => r <- fold_at add i t ;; Ok (a :: r)
      end
  end.

(** [l[-2] += l[-1]; l = l[:-1]] *)
Definition fold_last (A : Type) (add : A -> A -> A) (l : list A)
  : result (list A) :=
  match rev l with
  | last :: prev :: t => Ok (rev (add prev last :: t))
  | _ => Raise IndexError
  end.

(** The loop condition
    [np.any(expected < min_expected) and len(expected) > 2]
    with [min_expected = 5]. *)
Definition needs_merge (expected : list float) : bool :=
  existsb (fun e => flt e (Fin 5)) expected && (2 <? length expected)%nat.

(** One iteration of the merging loop on [(expected, observed)]. *)
Definition merge_once (s : list float * list Z)
  : result (list float * list Z) :=
  let '(expected, observed) := s in
  idx <- np.argmin expected ;;
  if (idx =? 0)%nat then
    e <- fold_first fadd expected ;;
    o <- fold_first Z.add observed ;;
    Ok (e, o)
  else if (idx =? length expected - 1)%nat then
    e <- fold_last fadd expected ;;
    o <- fold_last Z.add observed ;;
    Ok (e, o)
  else
    e <- fold_at fadd idx expected ;;
    o <- fold_at Z.add idx observed ;;
    Ok (e, o).

(** Termination of the merging loop: each of the three folding operations,
    hence one iteration, shortens both arrays by exactly one element. *)

Lemma fold_first_length (A : Type) (add : A -> A -> A) (l l' : list A) :
  fold_first add l = Ok l' -> S (length l') = length l.
Proof.
  destruct l as [|a0 [|a1 t]]; simpl; intros H; inversion H; reflexivity.
Qed.

Lemma fold_at_length (A : Type) (add : A -> A -> A) (l : list A) :
  forall (idx : nat) (l' : list A),
    fold_at add idx l = Ok l' -> S (length l') = length l.
Proof.
  induction l as [|a t IH]; intros idx l' H; [discriminate H|].
  destruct idx as [|[|j]]; [discriminate H| |].
  - destruct t as [|b t']; inversion H; reflexivity.
  - cbn [fold_at] in H.
    destruct (fold_at add (S j) t) as [r|e] eqn:E; simpl in H;
      [|discriminate H].
    inversion H; subst. simpl. f_equal. now apply (IH (S j)).
Qed.

Lemma fold_last_length (A : Type) (add : A -> A -> A) (l l' : list A) :
  fold_last add l = Ok l' -> S (length l') = length l.
Proof.
  unfold fold_last. intros H.
  rewrite <- (length_rev l).
  destruct (rev l) as [|z [|p t]]; inversion H; subst.
  simpl. rewrite ?length_app, ?length_rev. simpl. lia.
Qed.

Lemma merge_once_length (s s' : list float * list Z) :
  merge_once s = Ok s' ->
  S (length (fst s')) = length (fst s) /\ S (length (snd s')) = length (snd s).
Proof.
  destruct s as [e o]. unfold merge_once.
  destruct (np.argmin e) as [idx|]; [simpl|discriminate].
  destruct (idx =? 0)%nat; [|destruct (idx =? length e - 1)%nat].
  - destruct (fold_first fadd e) as [e'|] eqn:He; [simpl|discriminate].
    destruct (fold_first Z.add o) as [o'|] eqn:Ho; [simpl|discriminate].
    intros H; inversion H; subst; simpl.
    split; eauto using fold_first_length.
  - destruct (fold_last fadd e) as [e'|] eqn:He; [simpl|discriminate].
    destruct (fold_last Z.add o) as [o'|] eqn:Ho; [simpl|discriminate].
    intros H; inversion H; subst; simpl.
    split; eauto using fold_last_length.
  - destruct (fold_at fadd idx e) as [e'|] eqn:He; [simpl|discriminate].
    destruct (fold_at Z.add idx o) as [o'|] eqn:Ho; [simpl|discriminate].
    intros H; inversion H; subst; simpl.
    split; eauto using fold_at_length.
Qed.

(** The total of the observed counts. *)
Definition sum_Z (l : list Z) : Z := fold_right Z.add 0%Z l.

(** Case analysis that remembers the equation of the analysed value. *)
Definition inspect (A : Type) (a : A) : {b : A | a = b} := exist _ a eq_refl.

(** The merging loop
    [while np.any(expected < 5) and len(expected) > 2: ...].
    The result carries, before the final arrays, the number of iterations
    that were executed. *)
Equations? merge_bins (s : list float * list Z)
  : result (nat * (list float * list Z)) by wf (length (fst s)) lt :=
  merge_bins s with inspect (needs_merge (fst s)) => {
    | exist _ false _ => Ok (0%nat, s)
    | exist _ true _ with inspect (merge_once s) => {
      | exist _ (Raise e) _ => Raise e
      | exist _ (Ok s') Hs =>
          match merge_bins s' with
          | Ok (c, r) => Ok (S c, r)
          | Raise e => Raise e
          end } }.
Proof.
  destruct (@merge_once_length (_, _) (_, _) Hs) as [Hlen _].
  simpl in Hlen. lia.
Qed.

(** Python's built-in [max] of a list and of two values: the first
    argument stays unless a later one compares greater. *)
Definition py_max (l : list float) : result float :=
  match l with
  | [] => Raise ValueError
  | x :: t => Ok (fold_left (fun best y => if fgt y best then y else best) t x)
  end.

Definition py_max2 (a b : float) : float := if fgt b a then b else a.

(** Elementwise combination of two arrays of one shape. *)
Fixpoint zip_with (A B C : Type) (f : A -> B -> C) (a : list A) (b : list B)
  : list C :=
  match a, b with
  | x :: a', y :: b' => f x y :: zip_with f a' b'
  | _, _ => []
  end.

(** The critical value of the Smirnov test for a sample of size [n]. *)
Definition smirnov_critical (n : nat) : float :=
  if (n <=? 20)%nat then lit 294 1000
  else if (n <=? 30)%nat then lit 242 1000
  else if (n <=? 40)%nat then lit 210 1000
  else fdiv (lit 136 100) (fsqrt (of_nat n)).

(** The entry recorded for the Smirnov test from its statistic [D]:
    ['is_normal': D <= d_critical]. *)
Definition smirnov_entry (D : float) (n : nat) : normality_entry :=
  let d_critical := smirnov_critical n in
  SmirnovTest D d_critical (fle D d_critical).

Section Normality.

Variable lib : Library.
Variable self : StatisticalAnalyzer.

Definition shapiro_block : result normality_entry :=
  sp <- shapiro lib (data self) ;;
  let '(stat_shapiro, p_shapiro) := sp in
  Ok (PValueTest stat_shapiro p_shapiro (fgt p_shapiro (lit 5 100))).

Definition romanovsky_block : result normality_entry :=
  q <- py_div (Fin 6) (of_nat (n self)) ;;
  let romanovsky_stat :=
    fdiv (fabs (res.skewness (results self))) (fsqrt q) in
  Ok (RomanovskyTest romanovsky_stat 3 (flt romanovsky_stat (Fin 3))).

(** The expected frequency of each bin under the fitted normal law. *)
Definition expected_frequencies (bin_edges : list float) : list float :=
  map (fun i =>
         let p :=
           fsub (norm_cdf3 lib (nth (S i) bin_edges NaN)
                           (res.mean (results self)) (res.std (results self)))
                (norm_cdf3 lib (nth i bin_edges NaN)
                           (res.mean (results self)) (res.std (results self)))
         in fmul (of_nat (n self)) p)
      (seq 0 (length bin_edges - 1)).

Definition chi2_block : result normality_entry :=
  k <- sturges_bins (n self) ;;
  h <- np.histogram (data self) k ;;
  let '(observed, bin_edges) := h in
  let expected := expected_frequencies bin_edges in
  m <- merge_bins (expected, observed) ;;
  let '(_, (expected, observed)) := m in
  let chi2_stat :=
    np.sum (zip_with
              (fun o e => fdiv (fmul (fsub (of_Z o) e) (fsub (of_Z o) e)) e)
              observed expected) in
  let df := (Z.of_nat (length expected) - 3)%Z in
  let p_chi2 :=
    if (0 <? df)%Z then fsub (Fin 1) (chi2_cdf lib chi2_stat (of_Z df))
    else Fin 0 in
  Ok (Chi2Test chi2_stat p_chi2 df
               (if (0 <? df)%Z then fgt p_chi2 (lit 5 100) else false)).

Definition ks_block : result normality_entry :=
  ks <- kstest_norm lib (data self) (res.mean (results self))
                    (res.std (results self)) ;;
  let '(stat_ks, p_ks) := ks in
  Ok (PValueTest stat_ks p_ks (fgt p_ks (lit 5 100))).

(** The standardised order statistics of the Smirnov test. *)
Definition z_sorted : list float :=
  map (fun x => fdiv (fsub x (res.mean (results self)))
                     (res.std (results self)))
      (np.sort (data self)).

(** The deviations [F_empirical - F_theoretical] at every order statistic. *)
Definition d_plus : list float :=
  let n := length (data self) in
  map (fun i => fsub (fdiv (of_nat (i + 1)) (of_nat n))
                     (norm_cdf lib (nth i z_sorted NaN)))
      (seq 0 n).

(** The deviations [F_theoretical - F_empirical_prev]. *)
Definition d_minus : list float :=
  let n := length (data self) in
  map (fun i => fsub (norm_cdf lib (nth i z_sorted NaN))
                     (fdiv (of_nat i) (of_nat n)))
      (seq 0 n).

(** [D = max(max(d_plus), max(d_minus))] *)
Definition smirnov_D : result float :=
  mp <- py_max d_plus ;;
  mm <- py_max d_minus ;;
  Ok (py_max2 mp mm).

Definition smirnov_block : result normality_entry :=
  D <- smirnov_D ;;
  Ok (smirnov_entry D (length (data self))).

(** [StatisticalAnalyzer.test_normality] *)
Definition test_normality : result (dict (option normality_entry)) :=
  let tests := [] in
  let tests := dict_set tests "shapiro" (try_except shapiro_block) in
  tests <- (if (n self <=? 50)%nat
            then r <- romanovsky_block ;;
                 Ok (dict_set tests "romanovsky" (Some r))
            else Ok tests) ;;
  let tests := dict_set tests "chi2" (try_except chi2_block) in
  let tests := dict_set tests "ks" (try_except ks_block) in
  let tests := dict_set tests "smirnov" (try_except smirnov_block) in
  Ok tests.

End Normality.

(* ------------------------------------------------------------------ *)
(** * [detect_outliers] *)
(* ------------------------------------------------------------------ *)

(** One entry of the dictionary returned by [detect_outliers]. *)
Inductive outlier_entry : Type :=
| IqrEntry (indices : list nat) (values : list float)
           (lower_fence upper_fence : float) (count : nat)
| SigmaEntry (indices : list nat) (values : list float)
             (lower_limit upper_limit : float) (count : nat)
| GrubbsEntry (max_z_score critical_value : float)
              (outlier_index : option nat) (outlier_value : option float)
              (has_outliers : bool)
| SharlieEntry (outlier_count : nat) (threshold : Z) (has_outliers : bool)
| IrwinEntry (max_lambda critical_value : float)
             (outlier_index : option nat) (has_outliers : bool)
| ChauvenetEntry (outlier_indices : list nat) (outlier_values : list float)
                 (count : nat).

(** The number of points an entry flags. *)
Definition flagged_count (e : outlier_entry) : nat :=
  match e with
  | IqrEntry _ _ _ _ count => count
  | SigmaEntry _ _ _ _ count => count
  | GrubbsEntry _ _ outlier_index _ _ =>
      match outlier_index with Some _ => 1 | None => 0 end
  | SharlieEntry outlier_count _ _ => outlier_count
  | IrwinEntry _ _ outlier_index _ =>
      match outlier_index with Some _ => 1 | None => 0 end
  | ChauvenetEntry _ _ count => count
  end.

Section Outliers.

Variable lib : Library.
Variable self : StatisticalAnalyzer.

(** [np.abs((self.data - mean) / std)] *)
Definition z_scores : list float :=
  map (fun x => fabs (fdiv (fsub x (res.mean (results self)))
                           (res.std (results self))))
      (data self).

(** The mask [(self.data < lo) | (self.data > hi)]. *)
Definition outside (lo hi : float) : list bool :=
  map (fun x => flt x lo || fgt x hi) (data self).

Definition iqr_method : outlier_entry :=
  let iqr := fsub (res.q3 (results self)) (res.q1 (results self)) in
  let lower_fence :=
    fsub (res.q1 (results self)) (fmul (lit 15 10) iqr) in
  let upper_fence :=
    fadd (res.q3 (results self)) (fmul (lit 15 10) iqr) in
  let mask := outside lower_fence upper_fence in
  IqrEntry (np.where_ mask) (np.select (data self) mask)
           lower_fence upper_fence (length (np.where_ mask)).

Definition sigma3_method : outlier_entry :=
  let lower_limit :=
    fsub (res.mean (results self)) (fmul (Fin 3) (res.std (results self))) in
  let upper_limit :=
    fadd (res.mean (results self)) (fmul (Fin 3) (res.std (results self))) in
  let mask := outside lower_limit upper_limit in
  SigmaEntry (np.where_ mask) (np.select (data self) mask)
             lower_limit upper_limit (length (np.where_ mask)).

(** The critical value of the Grubbs test:
    [t_critical = stats.t.ppf(1 - alpha/(2*n), n - 2)],
    [g_critical = ((n-1) * t_critical) / np.sqrt(n * (n - 2 + t_critical**2))]
    with [alpha = 0.05]. *)
Definition grubbs_t_critical : result float :=
  a <- py_div (lit 5 100) (of_nat (2 * n self)) ;;
  Ok (t_ppf lib (fsub (Fin 1) a) (of_Z (Z.of_nat (n self) - 2))).

Definition grubbs_critical (t_critical : float) : float :=
  fdiv (fmul (of_Z (Z.of_nat (n self) - 1)) t_critical)
       (fsqrt (fmul (of_nat (n self))
                    (fadd (of_Z (Z.of_nat (n self) - 2))
                          (fmul t_critical t_critical)))).

Definition grubbs_method : result outlier_entry :=
  max_z <- np.max z_scores ;;
  max_idx <- np.argmax z_scores ;;
  t_critical <- grubbs_t_critical ;;
  let g_critical := grubbs_critical t_critical in
  Ok (GrubbsEntry max_z g_critical
        (if fgt max_z g_critical then Some max_idx else None)
        (if fgt max_z g_critical then Some (nth max_idx (data self) NaN)
         else None)
        (fgt max_z g_critical)).

Definition sharlie_method : outlier_entry :=
  let outlier_count := np.count (map (fun z => fgt z (Fin 3)) z_scores) in
  SharlieEntry outlier_count 3 (0 <? outlier_count)%nat.

Definition irwin_method : result outlier_entry :=
  let sorted_data := np.sort (data self) in
  let diffs := np.diff sorted_data in
  let lambda_values := map (fun d => fdiv d (res.std (results self))) diffs in
  max_lambda <- np.max lambda_values ;;
  max_lambda_idx <- np.argmax lambda_values ;;
  let lambda_critical := lit 17 10 in
  Ok (IrwinEntry max_lambda lambda_critical
        (if fgt max_lambda lambda_critical then Some max_lambda_idx else None)
        (fgt max_lambda lambda_critical)).

Definition chauvenet_method : outlier_entry :=
  let p := map (fun z => fmul (Fin 2) (fsub (Fin 1) (norm_cdf lib z)))
               z_scores in
  let n_expected := map (fun q => fmul (of_nat (n self)) q) p in
  let outlier_mask := map (fun e => flt e (lit 5 10)) n_expected in
  ChauvenetEntry (np.where_ outlier_mask)
                 (np.select (data self) outlier_mask)
                 (np.count outlier_mask).

(** [method == name or method == 'all'] *)
Definition selected (method name : string) : bool :=
  String.eqb method name || String.eqb method "all".

(** [StatisticalAnalyzer.detect_outliers(self, method='iqr')]; [None]
    stands for a call that supplies no [method]. *)
Definition detect_outliers (method_arg : option string)
  : result (dict outlier_entry) :=
  let method := match method_arg with Some m => m | None => "iqr"%string end in
  let outliers := [] in
  let outliers :=
    if selected method "iqr" then dict_set outliers "iqr" iqr_method
    else outliers in
  let outliers :=
    if selected method "3sigma" then dict_set outliers "3sigma" sigma3_method
    else outliers in
  outliers <- (if selected method "grubbs"
               then e <- grubbs_method ;; Ok (dict_set outliers "grubbs" e)
               else Ok outliers) ;;
  let outliers :=
    if selected method "sharlie"
    then dict_set outliers "sharlie" sharlie_method
    else outliers in
  outliers <- (if selected method "irwin"
               then e <- irwin_method ;; Ok (dict_set outliers "irwin" e)
               else Ok outliers) ;;
  let outliers :=
    if selected method "chauvenet"
    then dict_set outliers "chauvenet" chauvenet_method
    else outliers in
  Ok outliers.

End Outliers.

(* ------------------------------------------------------------------ *)
(** * [parse_input] of [report.py] *)
(* ------------------------------------------------------------------ *)

Section Parsing.

(** The body of the loop over the lines of the file: strip the line, skip
    blank lines and comments, turn a decimal comma into a point, split on
    white space, skip lines with fewer than two columns and convert the
    second column with [float]; [None] when the line is skipped. *)
Variable parse_line : string -> option float.

(** The values collected by the loop. *)
Fixpoint collect_values (lines : list string) : list float :=
  match lines with
  | [] => []
  | line :: rest =>
      match parse_line line with
      | Some val => val :: collect_values rest
      | None => collect_values rest
      end
  end.

(** [parse_input]: [contents] holds the lines of the file, [None] when the
    file does not exist.  The label derived from the file name, returned
    next to the values, is not represented. *)
Definition parse_input (contents : option (list string))
  : result (list float) :=
  match contents with
  | None => Raise FileNotFoundError
  | Some lines =>
      let values := collect_values lines in
      if (length values <? 5)%nat then Raise ValueError else Ok values
  end.

End Parsing.

(** The analysis as the report generator runs it: construct the analyzer,
    then call [detect_outliers]. *)
Definition analyze_outliers (lib : Library) (data : list float)
    (method_arg : option string) : result (dict outlier_entry) :=
  a <- __init__ lib data ;;
  detect_outliers lib a method_arg.








(** The real number whose integer part Sturges' rule takes,
    [1 + 3.322 * log10(n)]. *)
Definition sturges_real (k : nat) : R :=
  1 + IZR 3322 / IZR 1000 * (ln (INR k) / ln 10).


(** A stand-in for the library routines, with constant answers; it serves
    to instantiate statements that hold for every library. *)
Definition constant_library : Library := {|
  median := fun _ => Fin 0;
  percentile := fun _ _ => Fin 0;
  skew := fun _ => Fin 0;
  kurtosis := fun _ => Fin 0;
  hmean := fun _ => Fin 1;
  gmean := fun _ => Fin 1;
  t_ppf := fun _ _ => Fin 2;
  chi2_ppf := fun _ _ => Fin 1;
  chi2_cdf := fun _ _ => Fin (1/2);
  norm_cdf := fun _ => Fin (1/2);
  shapiro := fun _ => Ok (Fin 1, Fin 1);
  kstest_norm := fun _ _ _ => Ok (Fin 0, Fin 1)
|}.

(* ------------------------------------------------------------------ *)
(** * Callers and companions of the analyzer *)
(* ------------------------------------------------------------------ *)

(** The indices and the values listed by the entries that are built from a
    mask (IQR, 3-sigma, Chauvenet). *)
Definition flagged_indices (e : outlier_entry) : list nat :=
  match e with
  | IqrEntry indices _ _ _ _ => indices
  | SigmaEntry indices _ _ _ _ => indices
  | ChauvenetEntry outlier_indices _ _ => outlier_indices
  | _ => []
  end.

Definition flagged_values (e : outlier_entry) : list float :=
  match e with
  | IqrEntry _ values _ _ _ => values
  | SigmaEntry _ values _ _ _ => values
  | ChauvenetEntry _ outlier_values _ => outlier_values
  | _ => []
  end.

(** ['is_normal'] of an entry of [test_normality]. *)
Definition entry_is_normal (e : normality_entry) : bool :=
  match e with
  | PValueTest _ _ is_normal => is_normal
  | RomanovskyTest _ _ is_normal => is_normal
  | Chi2Test _ _ _ is_normal => is_normal
  | SmirnovTest _ _ is_normal => is_normal
  end.

(** [create_conclusion_sheet]:
    [sum(1 for t in tests.values() if t and t.get('is_normal', False))] and
    [len([t for t in tests.values() if t])]. *)
Definition normal_tests_passed (tests : dict (option normality_entry)) : nat :=
  length (filter (fun t => match t with
                           | Some e => entry_is_normal e
                           | None => false
                           end)
                 (map snd tests)).

Definition total_tests (tests : dict (option normality_entry)) : nat :=
  length (filter (fun t => match t with Some _ => true | None => false end)
                 (map snd tests)).





(** [np.ceil] *)
Definition np_ceil (x : float) : float :=
  match x with
  | Fin r => Fin (IZR (Zceil r))
  | _ => x
  end.

(** The bin count of the histogram chart in [create_charts_sheet]:
    [int(1 + 3.322 * np.log10(len(data)))]. *)
Definition chart_bins (n : nat) : result Z :=
  py_int (fadd (Fin 1) (fmul (lit 3322 1000) (np.log10 (of_nat n)))).

(** The bin count of the histogram plot in [create_all_plots] of
    [report.py]: [int(np.ceil(1 + 3.322 * np.log10(len(data))))]. *)
Definition plot_bins (n : nat) : result Z :=
  py_int (np_ceil (fadd (Fin 1)
                        (fmul (lit 3322 1000) (np.log10 (of_nat n))))).

Section Report.

Variable parse_line : string -> option float.

(** The loading loop of [generate_pro_report]: every file is parsed, and a
    file whose parsing raises is reported and skipped. *)
Fixpoint load_datasets (files : list (option (list string)))
  : list (list float) :=
  match files with
  | [] => []
  | fp :: rest =>
      match parse_input parse_line fp with
      | Ok values => values :: load_datasets rest
      | Raise _ => load_datasets rest
      end
  end.

(** The sample sizes that [generate_pro_report] appends to [summary_data]:
    one per data set, then the size of the concatenation when there are at
    least two data sets. *)
Definition summary_sizes (datasets : list (list float)) : list nat :=
  map (fun d => length d) datasets
  ++ (if (2 <=? length datasets)%nat then [length (concat datasets)] else []).

(** [generate_pro_report] as far as the data go: [None] when no data set
    could be loaded (the function returns before a workbook is created),
    otherwise the sample sizes that it hands to [create_summary_sheet] once
    the sheets and plots have been written.  The labels and the rendering
    are not represented. *)
Definition generate_pro_report (files : list (option (list string)))
  : option (list nat) :=
  match load_datasets files with
  | [] => None
  | datasets => Some (summary_sizes datasets)
  end.

End Report.



(** ** The data entry of the desktop application *)

Section Gui.

(** [float(s)]: [None] when it raises [ValueError]. *)
Variable float_of : string -> option float.

(** The head of the loop body of [parse_data]: strip the line, skip it
    ([None]) when it is blank or starts with [#] or [//], turn commas into
    points and split on tabs or, when there is no tab, on white space. *)
Variable split_line : string -> option (list string).

(** [for part in parts: try: value = float(part); break
     except ValueError: continue], from [value = None]. *)
Fixpoint first_number (parts : list string) : option float :=
  match parts with
  | [] => None
  | part :: rest =>
      match float_of part with
      | Some v => Some v
      | None => first_number rest
      end
  end.

(** The value [parse_data] takes from the columns of one line: the second
    column is tried first, then the first one, then every column in turn. *)
Definition row_value (parts : list string) : option float :=
  let value :=
    match parts with
    | _ :: p1 :: _ => float_of p1
    | _ => None
    end in
  match value with
  | Some v => Some v
  | None =>
      match parts with
      | p0 :: _ =>
          match float_of p0 with
          | Some v => Some v
          | None => first_number parts
          end
      | [] => None
      end
  end.

(** [ExcelProMasterGUI.parse_data], on the lines of the text. *)
Fixpoint parse_data (lines : list string) : list float :=
  match lines with
  | [] => []
  | line :: rest =>
      match split_line line with
      | None => parse_data rest
      | Some parts =>
          match row_value parts with
          | Some v => v :: parse_data rest
          | None => parse_data rest
          end
      end
  end.


End Gui.

(* ------------------------------------------------------------------ *)
(** * Properties *)
(* ------------------------------------------------------------------ *)

(** ** Comparisons of reals *)

Lemma Rltb_spec (a b : R) : reflect (a < b) (Rltb a b).
Proof. unfold Rltb. destruct (Rlt_dec a b); constructor; assumption. Qed.

Lemma Rleb_spec (a b : R) : reflect (a <= b) (Rleb a b).
Proof. unfold Rleb. destruct (Rle_dec a b); constructor; assumption. Qed.

Lemma Reqb_spec (a b : R) : reflect (a = b) (Reqb a b).
Proof. unfold Reqb. destruct (Req_dec_T a b); constructor; assumption. Qed.


Lemma Rltb_false (a b : R) : ~ a < b -> Rltb a b = false.
Proof. destruct (Rltb_spec a b); tauto. Qed.


Lemma Rleb_false (a b : R) : ~ a <= b -> Rleb a b = false.
Proof. destruct (Rleb_spec a b); tauto. Qed.


Lemma Reqb_false (a b : R) : a <> b -> Reqb a b = false.
Proof. destruct (Reqb_spec a b); tauto. Qed.

(** Case analysis on every real comparison in sight. *)
Ltac real_cases :=
  repeat match goal with
    | |- context [Rltb ?a ?b] => destruct (Rltb_spec a b)
    | |- context [Rleb ?a ?b] => destruct (Rleb_spec a b)
    | |- context [Reqb ?a ?b] => destruct (Reqb_spec a b)
    | H : context [Rltb ?a ?b] |- _ => destruct (Rltb_spec a b)
    | H : context [Rleb ?a ?b] |- _ => destruct (Rleb_spec a b)
    | H : context [Reqb ?a ?b] |- _ => destruct (Reqb_spec a b)
    end.

(** ** The constructor *)

Lemma init_nonempty (lib : Library) (x : float) (t : list float) :
  exists r, __init__ lib (x :: t)
            = Ok {| data := x :: t; n := length (x :: t); results := r |}.
Proof. unfold __init__, _calculate_all. cbn [np.min np.max bind]. eauto. Qed.

Lemma init_empty (lib : Library) : __init__ lib [] = Raise ValueError.
Proof. reflexivity. Qed.

Lemma init_data (lib : Library) (d : list float) (a : StatisticalAnalyzer) :
  __init__ lib d = Ok a -> data a = d /\ n a = length d.
Proof.
  destruct d as [|x t]; [discriminate|].
  destruct (init_nonempty lib x t) as [r ->].
  intros H; inversion H; subst; simpl; auto.
Qed.

(** ** Lengths of the numpy results *)

Lemma insert_length (x : float) (l : list float) :
  length (np.insert x l) = S (length l).
Proof.
  induction l as [|y t IH]; simpl; [reflexivity|].
  destruct (np.sort_le x y); simpl; [reflexivity|]. now rewrite IH.
Qed.

Lemma sort_length (l : list float) : length (np.sort l) = length l.
Proof.
  unfold np.sort.
  induction l as [|x t IH]; cbn [fold_right]; [reflexivity|].
  now rewrite insert_length, IH.
Qed.

Lemma diff_length (l : list float) : length (np.diff l) = (length l - 1)%nat.
Proof.
  induction l as [|x [|y t] IH]; try reflexivity.
  change (np.diff (x :: y :: t)) with (fsub y x :: np.diff (y :: t)).
  simpl length in *. rewrite IH. lia.
Qed.

Lemma max_ok (l : list float) :
  l <> [] -> exists m, np.max l = Ok m.
Proof. destruct l; [congruence|simpl; eauto]. Qed.

Lemma argmax_ok (l : list float) :
  l <> [] -> exists i, np.argmax l = Ok i.
Proof. destruct l; [congruence|simpl; eauto]. Qed.

Lemma nonempty_length (A : Type) (l : list A) :
  (1 <= length l)%nat -> l <> [].
Proof. destruct l; simpl; [lia|congruence]. Qed.

Lemma py_div_nat_ok (x : float) (k : nat) :
  (1 <= k)%nat -> py_div x (of_nat k) = Ok (fdiv x (of_nat k)).
Proof.
  intros Hk. unfold py_div, of_nat, feq.
  rewrite Reqb_false; [reflexivity|].
  apply not_0_INR. lia.
Qed.

(** ** Which methods [detect_outliers] runs *)

Lemma selected_all (name : string) : selected "all" name = true.
Proof. unfold selected. apply orb_true_r. Qed.

Lemma grubbs_method_ok (lib : Library) (self : StatisticalAnalyzer) :
  n self = length (data self) -> (1 <= length (data self))%nat ->
  exists e, grubbs_method lib self = Ok e.
Proof.
  intros Hn Hlen. unfold grubbs_method, grubbs_t_critical.
  assert (Hz : z_scores self <> []).
  { apply nonempty_length. unfold z_scores. now rewrite length_map. }
  destruct (max_ok Hz) as [m ->]. destruct (argmax_ok Hz) as [i ->].
  rewrite py_div_nat_ok by lia. simpl. eauto.
Qed.

Lemma irwin_method_ok (self : StatisticalAnalyzer) :
  (2 <= length (data self))%nat -> exists e, irwin_method self = Ok e.
Proof.
  intros Hlen. unfold irwin_method.
  set (lv := map _ (np.diff (np.sort (data self)))).
  assert (Hl : lv <> []).
  { apply nonempty_length. unfold lv.
    rewrite length_map, diff_length, sort_length. lia. }
  destruct (max_ok Hl) as [m ->]. destruct (argmax_ok Hl) as [i ->].
  simpl. eauto.
Qed.

(** C4, as stated, fails: a call of [detect_outliers] without a selector on
    the sample 1, 2, 3, 4, 5 returns a dictionary whose only key is ['iqr'];
    it has no entry for the Grubbs method (nor for the other four). *)
Lemma detect_outliers_default_counterexample :
  exists d,
    analyze_outliers constant_library [Fin 1; Fin 2; Fin 3; Fin 4; Fin 5] None
    = Ok d
    /\ keys d = ["iqr"%string]
    /\ dict_get d "grubbs" = None.
Proof.
  unfold analyze_outliers.
  destruct (init_nonempty constant_library (Fin 1) [Fin 2; Fin 3; Fin 4; Fin 5])
    as [r ->].
  cbn [bind]. eexists. split; [reflexivity|]. split; reflexivity.
Qed.

(** C4 (amended): without a selector [detect_outliers] runs the IQR method
    alone, its default being [method='iqr']: the result holds exactly the
    entry ['iqr'].  With the selector ['all'], on an analyzer of at least two
    values, the result holds one entry for each of the six methods, in the
    order IQR, 3-sigma, Grubbs, Sharlie, Irwin, Chauvenet. *)
Theorem detect_outliers_methods (lib : Library) (self : StatisticalAnalyzer) :
  detect_outliers lib self None = Ok [("iqr"%string, iqr_method self)]
  /\ (n self = length (data self) -> (2 <= length (data self))%nat ->
      exists d, detect_outliers lib self (Some "all"%string) = Ok d
                /\ keys d = ["iqr"; "3sigma"; "grubbs"; "sharlie"; "irwin";
                             "chauvenet"]%string).
Proof.
  split; [reflexivity|].
  intros Hn Hlen. unfold detect_outliers.
  rewrite !selected_all.
  destruct (@grubbs_method_ok lib self Hn) as [g ->]; [lia|].
  destruct (irwin_method_ok self Hlen) as [i ->].
  cbn. eexists. split; reflexivity.
Qed.

Lemma detect_outliers_methods_witness :
  let self := {| data := [Fin 1; Fin 2]; n := 2;
                 results := res.mk (Fin 0) (Fin 1) (Fin 1) (Fin 1) (Fin 1)
                   (Fin 1) (Fin 2) (Fin 1) (Fin 0) (Fin 0) (Fin 0) (Fin 0)
                   (Fin 0) (Fin 0) None None (Fin 0) (Fin 0) (Fin 0) (Fin 0)
                   (Fin 0) (Fin 0) |} in
  exists d, detect_outliers constant_library self (Some "all"%string) = Ok d
            /\ keys d = ["iqr"; "3sigma"; "grubbs"; "sharlie"; "irwin";
                         "chauvenet"]%string.
Proof.
  intros self.
  apply (proj2 (detect_outliers_methods constant_library self));
    [reflexivity | simpl; lia].
Defined.

(** ** Input validation *)

(** C1, as stated, fails: constructing the analyzer on the three values
    1, 2, 3 succeeds, and so does constructing it on five values of which
    one is [nan]; neither raises [InvalidInputError]. *)
Lemma init_unvalidated_counterexample :
  is_ok (__init__ constant_library [Fin 1; Fin 2; Fin 3]) = true
  /\ is_ok (__init__ constant_library [NaN; Fin 1; Fin 2; Fin 3; Fin 4])
     = true.
Proof.
  split.
  - destruct (init_nonempty constant_library (Fin 1) [Fin 2; Fin 3]) as [r ->].
    reflexivity.
  - destruct (init_nonempty constant_library NaN [Fin 1; Fin 2; Fin 3; Fin 4])
      as [r ->].
    reflexivity.
Qed.

(** C1 (amended): the length is validated by [parse_input] alone, which
    raises [ValueError] exactly when fewer than five values were collected
    from the file, and returns the collected values unchanged otherwise,
    whatever they are.  The constructor of [StatisticalAnalyzer] validates
    nothing: it raises (numpy's [ValueError]) exactly on the empty sequence
    and builds the analyzer for every other one.  Neither ever raises
    [InvalidInputError]. *)
Theorem input_validation (lib : Library) (parse_line : string -> option float) :
  (forall lines,
      parse_input parse_line (Some lines) = Raise ValueError
      <-> (length (collect_values parse_line lines) < 5)%nat)
  /\ (forall lines,
      (5 <= length (collect_values parse_line lines))%nat ->
      parse_input parse_line (Some lines)
      = Ok (collect_values parse_line lines))
  /\ (forall d, __init__ lib d = Raise ValueError <-> d = [])
  /\ (forall d, d <> [] ->
      exists a, __init__ lib d = Ok a /\ data a = d /\ n a = length d)
  /\ (forall d, __init__ lib d <> Raise InvalidInputError)
  /\ (forall contents,
      parse_input parse_line contents <> Raise InvalidInputError).
Proof.
  repeat split.
  - unfold parse_input.
    destruct (Nat.ltb_spec (length (collect_values parse_line lines)) 5);
      [auto|discriminate].
  - intros H. unfold parse_input.
    destruct (Nat.ltb_spec (length (collect_values parse_line lines)) 5);
      [reflexivity|lia].
  - intros lines H. unfold parse_input.
    destruct (Nat.ltb_spec (length (collect_values parse_line lines)) 5);
      [lia|reflexivity].
  - destruct d as [|x t]; [reflexivity|].
    destruct (init_nonempty lib x t) as [r ->]. discriminate.
  - intros ->. reflexivity.
  - intros d Hd. destruct d as [|x t]; [congruence|].
    destruct (init_nonempty lib x t) as [r ->].
    eexists. split; [reflexivity|]. split; reflexivity.
  - intros d. destruct d as [|x t]; [discriminate|].
    destruct (init_nonempty lib x t) as [r ->]. discriminate.
  - intros contents. unfold parse_input.
    destruct contents as [lines|]; [|discriminate].
    destruct (length (collect_values parse_line lines) <? 5)%nat;
      discriminate.
Qed.

Lemma input_validation_witness :
  exists a, __init__ constant_library [Fin 1; Fin 2; Fin 3] = Ok a
            /\ data a = [Fin 1; Fin 2; Fin 3] /\ n a = 3%nat.
Proof.
  apply (proj1 (proj2 (proj2 (proj2
           (input_validation constant_library (fun _ => None)))))).
  discriminate.
Defined.

(** ** Sturges' rule in the chi-square test *)

Lemma ln_10_pos : 0 < ln 10.
Proof. rewrite <- ln_1. apply ln_increasing; lra. Qed.

Lemma log10_100 : ln (INR 100) / ln 10 = 2.
Proof.
  rewrite INR_IZR_INZ. change (Z.of_nat 100) with 100%Z.
  replace 100 with (10 ^ 2) by lra.
  rewrite ln_pow by lra. simpl INR.
  pose proof ln_10_pos. field. lra.
Qed.

Lemma log10_nonneg (k : nat) : (1 <= k)%nat -> 0 <= ln (INR k) / ln 10.
Proof.
  intros Hk. pose proof ln_10_pos as H10.
  assert (H1 : 1 <= INR k) by (change 1 with (INR 1); apply le_INR; lia).
  assert (0 <= ln (INR k)).
  { destruct H1 as [H1| <-]; [|rewrite ln_1; lra].
    rewrite <- ln_1. left. apply ln_increasing; lra. }
  apply Rmult_le_pos; [assumption|]. left. now apply Rinv_0_lt_compat.
Qed.

Lemma sturges_bins_floor (k : nat) :
  (1 <= k)%nat ->
  sturges_bins k = Ok (Z.max 5 (Z.min (Zfloor (sturges_real k)) 20)).
Proof.
  intros Hk. pose proof (log10_nonneg Hk) as Hlog.
  assert (Hpos : 0 < INR k) by (apply lt_0_INR; lia).
  unfold sturges_bins, np.log10, of_nat, by_sign, lit.
  rewrite (Rltb_false (a := INR k)) by lra.
  rewrite (Reqb_false (a := INR k)) by lra.
  cbn [fmul fadd py_int bind]. unfold Rtrunc.
  rewrite Rltb_false; [reflexivity|].
  assert (0 <= 3322 / 1000 * (ln (INR k) / ln 10))
    by (apply Rmult_le_pos; lra).
  lra.
Qed.

(** C3, on the code: for a sample of 100 values the chi-square test takes
    [k = 7] bins, the integer part of [1 + 3.322 * 2 = 7.644], whereas
    rounding up, as Sturges' rule is stated, gives 8; both lie inside the
    clamping range, which leaves them unchanged. *)
Theorem sturges_bins_truncates :
  sturges_bins 100 = Ok 7%Z
  /\ Z.max 5 (Z.min (Zceil (sturges_real 100)) 20) = 8%Z.
Proof.
  assert (Hr : sturges_real 100 = 7644 / 1000).
  { unfold sturges_real. rewrite log10_100. lra. }
  split.
  - rewrite sturges_bins_floor by lia. rewrite Hr.
    rewrite (Zfloor_eq 7); [reflexivity|lra].
  - rewrite Hr. unfold Zceil.
    rewrite (Zfloor_eq (-8)); [reflexivity|lra].
Qed.

Lemma sturges_bins_range (k : nat) (b : Z) :
  sturges_bins k = Ok b -> (5 <= b <= 20)%Z.
Proof.
  unfold sturges_bins. destruct (py_int _) as [z|]; [|discriminate].
  simpl. intros H. inversion H. lia.
Qed.

(** For every sample size [n >= 1] the bin count that the chi-square test
    computes is the integer part (the floor, the value being at least 1) of
    [1 + 3.322 * log10(n)], clamped to the range from 5 to 20. *)
Lemma sturges_bins_integer_part (k : nat) :
  (1 <= k)%nat ->
  exists b,
    sturges_bins k = Ok b
    /\ b = Z.max 5 (Z.min (Zfloor (sturges_real k)) 20)
    /\ 1 <= sturges_real k
    /\ (5 <= b <= 20)%Z.
Proof.
  intros Hk. eexists. split; [apply (sturges_bins_floor Hk)|].
  split; [reflexivity|]. split; [|lia].
  pose proof (log10_nonneg Hk) as Hlog. unfold sturges_real.
  assert (0 <= 3322 / 1000 * (ln (INR k) / ln 10))
    by (apply Rmult_le_pos; lra).
  lra.
Qed.

(** ** The bin-merging loop of the chi-square test *)

Lemma argmin_from_bound (l : list float) :
  forall (best : float) (bi i : nat),
    (bi < i)%nat -> (np.argmin_from best bi i l < i + length l)%nat.
Proof.
  induction l as [|x t IH]; intros best bi i Hb; simpl; [lia|].
  destruct (is_nan best); [lia|].
  destruct (is_nan x || flt x best).
  - specialize (IH x i (S i)). lia.
  - specialize (IH best bi (S i)). lia.
Qed.

Lemma argmin_bound (l : list float) (idx : nat) :
  np.argmin l = Ok idx -> (idx < length l)%nat.
Proof.
  destruct l as [|x t]; [discriminate|]. simpl. intros H. inversion H.
  pose proof (argmin_from_bound t x (bi := 0) (i := 1)). lia.
Qed.

Lemma fold_first_ok (A : Type) (add : A -> A -> A) (l : list A) :
  (2 <= length l)%nat -> exists l', fold_first add l = Ok l'.
Proof. destruct l as [|a [|b t]]; simpl; [lia|lia|eauto]. Qed.

Lemma fold_last_ok (A : Type) (add : A -> A -> A) (l : list A) :
  (2 <= length l)%nat -> exists l', fold_last add l = Ok l'.
Proof.
  intros H. unfold fold_last. rewrite <- (length_rev l) in H.
  destruct (rev l) as [|a [|b t]]; simpl in H; [lia|lia|eauto].
Qed.

Lemma fold_at_ok (A : Type) (add : A -> A -> A) (l : list A) :
  forall idx, (1 <= idx < length l)%nat -> exists l', fold_at add idx l = Ok l'.
Proof.
  induction l as [|a t IH]; intros idx H; simpl in H; [lia|].
  destruct idx as [|[|j]]; [lia| |].
  - destruct t as [|b t']; simpl in H; [lia|]. simpl. eauto.
  - destruct (IH (S j)) as [r Hr]; [lia|].
    cbn [fold_at]. rewrite Hr. simpl. eauto.
Qed.

Lemma merge_once_ok (expected : list float) (observed : list Z) :
  length observed = length expected -> (2 <= length expected)%nat ->
  exists s', merge_once (expected, observed) = Ok s'.
Proof.
  intros Hlen H2. unfold merge_once.
  destruct (np.argmin expected) as [idx|] eqn:Hidx;
    [|destruct expected; [simpl in H2; lia|discriminate]].
  apply argmin_bound in Hidx. cbn [bind].
  destruct (Nat.eqb_spec idx 0);
    [|destruct (Nat.eqb_spec idx (length expected - 1))].
  - destruct (@fold_first_ok _ fadd expected H2) as [e1 ->].
    destruct (@fold_first_ok _ Z.add observed) as [o1 ->]; [lia|].
    simpl. eauto.
  - destruct (@fold_last_ok _ fadd expected H2) as [e1 ->].
    destruct (@fold_last_ok _ Z.add observed) as [o1 ->]; [lia|].
    simpl. eauto.
  - destruct (@fold_at_ok _ fadd expected idx) as [e1 ->]; [lia|].
    destruct (@fold_at_ok _ Z.add observed idx) as [o1 ->]; [lia|].
    simpl. eauto.
Qed.

Lemma needs_merge_length (expected : list float) :
  needs_merge expected = true -> (3 <= length expected)%nat.
Proof.
  unfold needs_merge. rewrite andb_true_iff. intros [_ H].
  apply Nat.ltb_lt in H. lia.
Qed.

Lemma sum_Z_app (a b : list Z) :
  sum_Z (a ++ b) = (sum_Z a + sum_Z b)%Z.
Proof. unfold sum_Z. induction a as [|x a IH]; simpl; lia. Qed.

Lemma sum_Z_rev (a : list Z) : sum_Z (rev a) = sum_Z a.
Proof.
  induction a as [|x a IH]; [reflexivity|].
  simpl rev. rewrite sum_Z_app, IH. unfold sum_Z. simpl. lia.
Qed.

Lemma fold_first_sum (l l' : list Z) :
  fold_first Z.add l = Ok l' -> sum_Z l' = sum_Z l.
Proof.
  destruct l as [|a [|b t]]; simpl; intros H; inversion H.
  unfold sum_Z. simpl. lia.
Qed.

Lemma fold_last_sum (l l' : list Z) :
  fold_last Z.add l = Ok l' -> sum_Z l' = sum_Z l.
Proof.
  unfold fold_last. intros H. rewrite <- (sum_Z_rev l).
  destruct (rev l) as [|z [|p t]]; inversion H; subst.
  simpl. rewrite ?sum_Z_app, ?sum_Z_rev. unfold sum_Z. simpl. lia.
Qed.

Lemma fold_at_sum (l : list Z) :
  forall idx l', fold_at Z.add idx l = Ok l' -> sum_Z l' = sum_Z l.
Proof.
  induction l as [|a t IH]; intros idx l' H; [discriminate H|].
  destruct idx as [|[|j]]; [discriminate H| |].
  - destruct t as [|b t']; inversion H. unfold sum_Z. simpl. lia.
  - cbn [fold_at] in H.
    destruct (fold_at Z.add (S j) t) as [r|e] eqn:E; simpl in H;
      [|discriminate H].
    inversion H; subst. apply IH in E. unfold sum_Z in *. simpl. lia.
Qed.

Lemma merge_once_sum (s s' : list float * list Z) :
  merge_once s = Ok s' -> sum_Z (snd s') = sum_Z (snd s).
Proof.
  destruct s as [e o]. unfold merge_once.
  destruct (np.argmin e) as [idx|]; [simpl|discriminate].
  destruct (idx =? 0)%nat; [|destruct (idx =? length e - 1)%nat].
  - destruct (fold_first fadd e) as [e'|]; [simpl|discriminate].
    destruct (fold_first Z.add o) as [o'|] eqn:Ho; [simpl|discriminate].
    intros H; inversion H; subst; simpl. eauto using fold_first_sum.
  - destruct (fold_last fadd e) as [e'|]; [simpl|discriminate].
    destruct (fold_last Z.add o) as [o'|] eqn:Ho; [simpl|discriminate].
    intros H; inversion H; subst; simpl. eauto using fold_last_sum.
  - destruct (fold_at fadd idx e) as [e'|]; [simpl|discriminate].
    destruct (fold_at Z.add idx o) as [o'|] eqn:Ho; [simpl|discriminate].
    intros H; inversion H; subst; simpl. eauto using fold_at_sum.
Qed.


Lemma merge_bins_result (s : list float * list Z) :
  length (snd s) = length (fst s) ->
  exists c e o,
    merge_bins s = Ok (c, (e, o))
    /\ needs_merge e = false
    /\ (length e + c = length (fst s))%nat
    /\ length o = length e
    /\ (c <= length (fst s) - 2)%nat
    /\ sum_Z o = sum_Z (snd s).
Proof.
  funelim (merge_bins s); intros Hlen.
  - exists 0%nat, (fst s), (snd s). destruct s; simpl in *.
    repeat split; auto; lia.
  - destruct (merge_once_length s Hs) as [L1 L2].
    pose proof (merge_once_sum s Hs) as Hsum.
    match goal with
    | Hn : needs_merge _ = true |- _ =>
        pose proof (needs_merge_length _ Hn) as H3
    end.
    destruct H as (c & e' & o & Hm & Hn & Hl & Ho & Hc & Hz); [lia|].
    rewrite Hm. exists (S c), e', o.
    repeat split; auto; try lia; congruence.
  - match goal with
    | Hn : needs_merge _ = true |- _ =>
        pose proof (needs_merge_length _ Hn) as H3
    end.
    destruct s as [ex ob]. cbn [fst snd] in *.
    destruct (merge_once_ok ex ob) as [s' Hs']; [lia|lia|]. congruence.
Qed.

Lemma histogram_lengths (d : list float) (k : Z)
    (observed : list Z) (bin_edges : list float) :
  np.histogram d k = Ok (observed, bin_edges) ->
  length observed = Z.to_nat k /\ length bin_edges = S (Z.to_nat k).
Proof.
  unfold np.histogram. destruct (k <? 1)%Z; [discriminate|].
  destruct (match d with [] => Ok (Fin 0) | _ => np.min d end) as [lo|];
    [|discriminate].
  destruct (match d with [] => Ok (Fin 1) | _ => np.max d end) as [hi|];
    [|discriminate].
  cbn [bind]. destruct (negb _); [discriminate|].
  intros H; inversion H; subst.
  unfold np.linspace. now rewrite !length_map, !length_seq.
Qed.

Lemma minimum_Fin (a b : R) : np.minimum (Fin a) (Fin b) = Fin (Rmin a b).
Proof.
  unfold np.minimum, Rmin. cbn [is_nan orb flt].
  destruct (Rltb_spec b a); destruct (Rle_dec a b); try reflexivity;
    f_equal; lra.
Qed.

Lemma fold_minimum_Fin (zs : list R) :
  forall b, fold_left np.minimum (map Fin zs) (Fin b)
            = Fin (fold_left Rmin zs b).
Proof.
  induction zs as [|z t IH]; intros b; simpl; [reflexivity|].
  rewrite minimum_Fin. apply IH.
Qed.

Lemma fold_maximum_finite (zs : list R) :
  forall b, exists M, fold_left np.maximum (map Fin zs) (Fin b) = Fin M.
Proof.
  induction zs as [|z t IH]; intros b; simpl; [eauto|].
  unfold np.maximum. cbn [is_nan orb flt]. destruct (Rltb b z); apply IH.
Qed.

(** On a non-empty sample of finite values the histogram is delivered. *)
Lemma histogram_finite_ok (xs : list R) (k : Z) :
  xs <> [] -> (1 <= k)%Z ->
  exists observed bin_edges,
    np.histogram (map Fin xs) k = Ok (observed, bin_edges).
Proof.
  intros Hx Hk. destruct xs as [|x t]; [congruence|].
  unfold np.histogram. destruct (Z.ltb_spec k 1); [lia|].
  cbn [map np.min np.max]. rewrite fold_minimum_Fin.
  destruct (fold_maximum_finite t x) as [M ->].
  cbn [bind is_finite andb negb]. eauto.
Qed.



(** ** Finite samples: the statistics as real numbers *)











(** The fields of [results] in terms of the data. *)
Lemma calculate_all_fields (lib : Library) (d : list float) (k : nat)
    (r : res.t) :
  _calculate_all lib d k = Ok r ->
  res.mean r = np.mean d
  /\ res.std r = np.std 1 d
  /\ res.se r = fdiv (np.std 1 d) (fsqrt (of_nat k))
  /\ res.cv r = (if fne (np.mean d) (Fin 0)
                 then fmul (fdiv (np.std 1 d) (np.mean d)) (Fin 100)
                 else Fin 0)
  /\ res.ci_mean_lower r
     = fsub (np.mean d)
            (fmul (t_ppf lib (fsub (Fin 1) (fdiv ci_alpha (Fin 2)))
                         (of_Z (Z.of_nat k - 1)))
                  (fdiv (np.std 1 d) (fsqrt (of_nat k))))
  /\ res.ci_mean_upper r
     = fadd (np.mean d)
            (fmul (t_ppf lib (fsub (Fin 1) (fdiv ci_alpha (Fin 2)))
                         (of_Z (Z.of_nat k - 1)))
                  (fdiv (np.std 1 d) (fsqrt (of_nat k))))
  /\ res.mean_harmonic r
     = (if all_positive d then Some (hmean lib (positive_part d)) else None)
  /\ res.mean_geometric r
     = (if all_positive d then Some (gmean lib (positive_part d)) else None).
Proof.
  unfold _calculate_all.
  destruct (np.min d) as [mn|]; [|discriminate].
  destruct (np.max d) as [mx|]; [|discriminate].
  cbn [bind]. intros H. inversion H. cbn. repeat split; reflexivity.
Qed.

Lemma init_results (lib : Library) (d : list float) (a : StatisticalAnalyzer) :
  __init__ lib d = Ok a ->
  _calculate_all lib d (length d) = Ok (results a)
  /\ data a = d /\ n a = length d.
Proof.
  unfold __init__.
  destruct (_calculate_all lib d (length d)) as [r|]; [|discriminate].
  cbn [bind]. intros H. inversion H. auto.
Qed.

(** ** Harmonic and geometric means *)

Lemma all_positive_Forall (d : list float) :
  all_positive d = true <-> Forall (fun x => fgt x (Fin 0) = true) d.
Proof. unfold all_positive. rewrite forallb_forall, Forall_forall. tauto. Qed.

Lemma positive_part_all (d : list float) :
  all_positive d = true -> positive_part d = d.
Proof.
  unfold all_positive, positive_part.
  induction d as [|x t IH]; simpl; [reflexivity|].
  rewrite andb_true_iff. intros [Hx Ht]. rewrite Hx. f_equal. now apply IH.
Qed.

Lemma fle_zero_not_positive (x : float) :
  fle x (Fin 0) = true -> fgt x (Fin 0) = false.
Proof.
  destruct x as [r| | |]; cbn; try reflexivity; try discriminate.
  intros H. destruct (Rleb_spec r 0); [|discriminate].
  apply Rltb_false. lra.
Qed.

Lemma not_positive_exists (d : list float) :
  Exists (fun x => fle x (Fin 0) = true) d -> all_positive d = true -> False.
Proof.
  intros Hex Hall. apply all_positive_Forall in Hall.
  apply Exists_exists in Hex. destruct Hex as (x & Hin & Hle).
  rewrite Forall_forall in Hall. specialize (Hall x Hin).
  apply fle_zero_not_positive in Hle. congruence.
Qed.

(** C8: on every (non-empty) sample the constructor succeeds, whatever the
    signs of the values, so every other statistic is computed; the harmonic
    and the geometric mean are present, holding [stats.hmean] and
    [stats.gmean] of the data, if and only if every value is strictly
    positive, and both are [None] otherwise. *)
Theorem positive_means (lib : Library) (d : list float) :
  d <> [] ->
  exists a,
    __init__ lib d = Ok a
    /\ (res.mean_harmonic (results a) <> None
        <-> Forall (fun x => fgt x (Fin 0) = true) d)
    /\ (res.mean_geometric (results a) <> None
        <-> Forall (fun x => fgt x (Fin 0) = true) d)
    /\ (Forall (fun x => fgt x (Fin 0) = true) d ->
        res.mean_harmonic (results a) = Some (hmean lib d)
        /\ res.mean_geometric (results a) = Some (gmean lib d))
    /\ (~ Forall (fun x => fgt x (Fin 0) = true) d ->
        res.mean_harmonic (results a) = None
        /\ res.mean_geometric (results a) = None)
    /\ (Exists (fun x => fle x (Fin 0) = true) d ->
        res.mean_harmonic (results a) = None
        /\ res.mean_geometric (results a) = None).
Proof.
  intros Hd. destruct d as [|x t]; [congruence|].
  destruct (init_nonempty lib x t) as [r Hinit].
  eexists. split; [exact Hinit|].
  destruct (init_results _ _ Hinit) as [Hr _].
  apply calculate_all_fields in Hr.
  destruct Hr as (_ & _ & _ & _ & _ & _ & Hh & Hg).
  cbn [results] in *. rewrite Hh, Hg.
  rewrite <- all_positive_Forall.
  destruct (all_positive (x :: t)) eqn:E.
  - rewrite (positive_part_all _ E).
    repeat split; auto; try discriminate; try congruence;
      exfalso; eapply not_positive_exists; eassumption.
  - repeat split; auto; try congruence; try discriminate.
Qed.

Lemma positive_means_witness :
  exists a,
    __init__ constant_library [Fin 1; Fin (-2); Fin 3; Fin 4; Fin 5] = Ok a
    /\ res.mean_harmonic (results a) = None
    /\ res.mean_geometric (results a) = None.
Proof.
  destruct (@positive_means constant_library
              [Fin 1; Fin (-2); Fin 3; Fin 4; Fin 5])
    as (a & Ha & _ & _ & _ & Hnone & _); [discriminate|].
  exists a. split; [exact Ha|]. apply Hnone.
  intros H. inversion H as [|? ? _ Ht]. inversion Ht as [|? ? H2 _].
  unfold fgt, flt in H2. rewrite Rltb_false in H2; [discriminate|lra].
Defined.

(** ** Confidence interval of the mean *)





(** ** Sharlie and 3-sigma *)



Lemma where_from_length (mask : list bool) :
  forall i, length (np.where_from i mask) = np.count mask.
Proof.
  unfold np.count. induction mask as [|b t IH]; intros i; simpl;
    [reflexivity|].
  destruct b; simpl; now rewrite IH.
Qed.



(** ** Constant samples *)











(** ** The Grubbs method *)

Lemma maximum_Fin (a b : R) : np.maximum (Fin a) (Fin b) = Fin (Rmax a b).
Proof.
  unfold np.maximum, Rmax. cbn [is_nan orb flt].
  destruct (Rltb_spec a b); destruct (Rle_dec a b); try reflexivity;
    try (f_equal; lra).
Qed.

Lemma fold_maximum_Fin (zs : list R) :
  forall b, fold_left np.maximum (map Fin zs) (Fin b)
            = Fin (fold_left Rmax zs b).
Proof.
  induction zs as [|z t IH]; intros b; simpl; [reflexivity|].
  rewrite maximum_Fin. apply IH.
Qed.

Lemma fold_Rmax_ge (zs : list R) :
  forall b, b <= fold_left Rmax zs b
            /\ forall z, In z zs -> z <= fold_left Rmax zs b.
Proof.
  induction zs as [|x t IH]; intros b; simpl.
  - split; [lra|tauto].
  - destruct (IH (Rmax b x)) as [H1 H2].
    pose proof (Rmax_l b x). pose proof (Rmax_r b x).
    split; [lra|]. intros z [<-|Hz]; [lra|auto].
Qed.









(** ** The Smirnov test *)
















(* ------------------------------------------------------------------ *)
(** * Further properties of the analyzer *)
(* ------------------------------------------------------------------ *)

(** ** Descriptive statistics *)


Lemma fold_Rmin_le (zs : list R) :
  forall b, fold_left Rmin zs b <= b
            /\ forall z, In z zs -> fold_left Rmin zs b <= z.
Proof.
  induction zs as [|x t IH]; intros b; simpl.
  - split; [lra|tauto].
  - destruct (IH (Rmin b x)) as [H1 H2].
    pose proof (Rmin_l b x). pose proof (Rmin_r b x).
    split; [lra|]. intros z [<-|Hz]; [lra|auto].
Qed.










(** ** The histogram of the chi-square test *)

Lemma sum_Z_indicator (A : Type) (q : A -> bool) (l : list A) :
  sum_Z (map (fun i => if q i then 1%Z else 0%Z) l)
  = Z.of_nat (length (filter q l)).
Proof.
  unfold sum_Z. induction l as [|i t IH]; [reflexivity|].
  cbn [map fold_right filter]. rewrite IH.
  destruct (q i); cbn [length]; lia.
Qed.

Lemma sum_Z_map_add (A : Type) (f g : A -> Z) (l : list A) :
  sum_Z (map (fun i => (f i + g i)%Z) l)
  = (sum_Z (map f l) + sum_Z (map g l))%Z.
Proof.
  unfold sum_Z. induction l as [|i t IH]; [reflexivity|].
  cbn [map fold_right]. rewrite IH. lia.
Qed.

(** Counting by bins: when every element lies in exactly one of the bins,
    the bin counts add up to the number of elements. *)
Lemma bin_counts_total (A : Type) (p : nat -> A -> bool) (bins : list nat)
    (l : list A) :
  (forall x, In x l -> length (filter (fun i => p i x) bins) = 1%nat) ->
  sum_Z (map (fun i => Z.of_nat (length (filter (p i) l))) bins)
  = Z.of_nat (length l).
Proof.
  induction l as [|x t IH]; intros Hone.
  - clear Hone. unfold sum_Z.
    induction bins as [|i b IHb]; [reflexivity|].
    cbn [map fold_right filter length] in *. rewrite IHb. reflexivity.
  - rewrite (map_ext
               (fun i => Z.of_nat (length (filter (p i) (x :: t))))
               (fun i => ((if p i x then 1 else 0)
                          + Z.of_nat (length (filter (p i) t)))%Z)).
    + rewrite sum_Z_map_add, sum_Z_indicator, IH.
      * rewrite (Hone x) by (left; reflexivity). cbn [length]. lia.
      * intros y Hy. apply Hone. right. exact Hy.
    + intros i. cbn [filter]. destruct (p i x); cbn [length]; lia.
Qed.

Lemma increasing_edges (E : nat -> R) (m : nat) :
  (forall i, (i < m)%nat -> E i < E (S i)) -> E 0%nat <= E m.
Proof.
  induction m as [|m IH]; intros Hinc; [lra|].
  assert (E 0%nat <= E m) by (apply IH; intros i Hi; apply Hinc; lia).
  assert (E m < E (S m)) by (apply Hinc; lia). lra.
Qed.

(** Half-open bins between increasing edges hold a point at most once, and
    exactly once when it lies between the first and the last edge. *)
Lemma half_open_bins (E : nat -> R) (x : R) (m : nat) :
  (forall i, (i < m)%nat -> E i < E (S i)) ->
  length (filter (fun i => Rleb (E i) x && Rltb x (E (S i))) (seq 0 m))
  = if Rleb (E 0%nat) x && Rltb x (E m) then 1%nat else 0%nat.
Proof.
  induction m as [|m IH]; intros Hinc.
  - cbn [seq filter length].
    destruct (Rleb_spec (E 0%nat) x); destruct (Rltb_spec x (E 0%nat));
      cbn [andb]; try reflexivity; lra.
  - rewrite seq_S, filter_app, length_app, IH
      by (intros i Hi; apply Hinc; lia).
    cbn [Nat.add filter].
    assert (E 0%nat <= E m)
      by (apply increasing_edges; intros i Hi; apply Hinc; lia).
    assert (E m < E (S m)) by (apply Hinc; lia).
    destruct (Rleb_spec (E 0%nat) x); destruct (Rltb_spec x (E m));
      destruct (Rleb_spec (E m) x); destruct (Rltb_spec x (E (S m)));
      cbn [andb length Nat.add]; try reflexivity; lra.
Qed.

(** The bins of a histogram, the last one closed: a point between the first
    and the last edge lies in exactly one of them. *)
Lemma histogram_bins (E : nat -> R) (x : R) (k : nat) :
  (1 <= k)%nat ->
  (forall i, (i < k)%nat -> E i < E (S i)) ->
  E 0%nat <= x <= E k ->
  length (filter (fun i => Rleb (E i) x
                           && (if Nat.eqb (S i) k then Rleb x (E (S i))
                               else Rltb x (E (S i))))
                 (seq 0 k))
  = 1%nat.
Proof.
  intros Hk Hinc Hx. destruct k as [|m]; [lia|].
  rewrite seq_S, filter_app, length_app. cbn [Nat.add filter].
  rewrite Nat.eqb_refl.
  rewrite (filter_ext_in
             (fun i => Rleb (E i) x
                       && (if Nat.eqb (S i) (S m) then Rleb x (E (S i))
                           else Rltb x (E (S i))))
             (fun i => Rleb (E i) x && Rltb x (E (S i)))).
  - rewrite half_open_bins by (intros i Hi; apply Hinc; lia).
    assert (E m < E (S m)) by (apply Hinc; lia).
    destruct (Rleb_spec (E 0%nat) x); destruct (Rltb_spec x (E m));
      destruct (Rleb_spec (E m) x); destruct (Rleb_spec x (E (S m)));
      cbn [andb length Nat.add]; try reflexivity; lra.
  - intros i Hi. apply in_seq in Hi.
    destruct (Nat.eqb_spec (S i) (S m)); [lia|reflexivity].
Qed.


Lemma minimum_finite (x y : float) :
  is_finite (np.minimum x y) = true \/ np.minimum x y = PInf ->
  (is_finite x = true \/ x = PInf) /\ (is_finite y = true \/ y = PInf).
Proof.
  destruct x as [a| | |], y as [b| | |]; cbn;
    try (destruct (Rltb b a)); cbn; intros [H|H];
    try discriminate; auto.
Qed.

Lemma maximum_finite (x y : float) :
  is_finite (np.maximum x y) = true \/ np.maximum x y = NInf ->
  (is_finite x = true \/ x = NInf) /\ (is_finite y = true \/ y = NInf).
Proof.
  destruct x as [a| | |], y as [b| | |]; cbn;
    try (destruct (Rltb a b)); cbn; intros [H|H];
    try discriminate; auto.
Qed.

Lemma fold_minimum_finite_inv (t : list float) :
  forall x,
    is_finite (fold_left np.minimum t x) = true
    \/ fold_left np.minimum t x = PInf ->
    Forall (fun y => is_finite y = true \/ y = PInf) (x :: t).
Proof.
  induction t as [|y t IH]; intros x H; cbn [fold_left] in H.
  - constructor; [exact H|constructor].
  - specialize (IH _ H). inversion IH as [|? ? Hxy Ht]; subst.
    destruct (minimum_finite _ _ Hxy) as [Hx Hy].
    constructor; [exact Hx|]. constructor; assumption.
Qed.

Lemma fold_maximum_finite_inv (t : list float) :
  forall x,
    is_finite (fold_left np.maximum t x) = true
    \/ fold_left np.maximum t x = NInf ->
    Forall (fun y => is_finite y = true \/ y = NInf) (x :: t).
Proof.
  induction t as [|y t IH]; intros x H; cbn [fold_left] in H.
  - constructor; [exact H|constructor].
  - specialize (IH _ H). inversion IH as [|? ? Hxy Ht]; subst.
    destruct (maximum_finite _ _ Hxy) as [Hx Hy].
    constructor; [exact Hx|]. constructor; assumption.
Qed.

Lemma finite_list (d : list float) :
  Forall (fun y => is_finite y = true) d -> exists xs, d = map Fin xs.
Proof.
  induction 1 as [|y t Hy Ht IH]; [exists []; reflexivity|].
  destruct IH as [xs Hxs]. subst t.
  destruct y as [r| | |]; try discriminate Hy.
  exists (r :: xs). reflexivity.
Qed.

(** A sample whose minimum and maximum are both finite holds finite values
    only. *)
Lemma min_max_finite (d : list float) (lo hi : float) :
  np.min d = Ok lo -> np.max d = Ok hi ->
  is_finite lo = true -> is_finite hi = true ->
  exists xs, d = map Fin xs.
Proof.
  destruct d as [|x t]; [discriminate|]. cbn [np.min np.max].
  intros Hlo Hhi Flo Fhi. injection Hlo as <-. injection Hhi as <-.
  pose proof (fold_minimum_finite_inv t x (or_introl Flo)) as Hmin.
  pose proof (fold_maximum_finite_inv t x (or_introl Fhi)) as Hmax.
  apply finite_list. rewrite Forall_forall in *.
  intros y Hy. destruct (Hmin y Hy) as [H|H1]; [exact H|].
  destruct (Hmax y Hy) as [H|H2]; [exact H|congruence].
Qed.

Lemma linspace_Fin (a b : R) (kn : nat) :
  (1 <= kn)%nat ->
  np.linspace (Fin a) (Fin b) kn
  = map (fun i => Fin (a + INR i * ((b - a) / INR kn))) (seq 0 (S kn)).
Proof.
  intros Hk. unfold np.linspace. apply map_ext. intros i.
  unfold of_nat. cbn [fsub]. unfold fdiv.
  rewrite Reqb_false by (apply not_0_INR; lia). reflexivity.
Qed.

Lemma nth_edges (E : nat -> R) (kn i : nat) :
  (i <= kn)%nat ->
  nth i (map (fun j => Fin (E j)) (seq 0 (S kn))) NaN = Fin (E i).
Proof.
  intros Hi.
  rewrite (nth_indep _ NaN (Fin (E 0%nat)))
    by (rewrite length_map, length_seq; lia).
  rewrite (map_nth (fun j => Fin (E j))), seq_nth by lia. reflexivity.
Qed.

(** Between edges that run from [a] to [b > a] in [kn] equal steps, every
    finite value of [[a, b]] falls into exactly one bin. *)
Lemma one_bin_per_value (a b x : R) (kn : nat) :
  (1 <= kn)%nat -> a < b -> a <= x <= b ->
  length (filter (fun i => np.in_bin (np.linspace (Fin a) (Fin b) kn) kn i
                                     (Fin x))
                 (seq 0 kn))
  = 1%nat.
Proof.
  intros Hk Hab Hx. rewrite (linspace_Fin a b Hk).
  set (E := fun i : nat => a + INR i * ((b - a) / INR kn)).
  assert (Hn : 0 < INR kn) by (apply lt_0_INR; lia).
  assert (Hstep : 0 < (b - a) / INR kn).
  { apply Rmult_lt_0_compat; [lra|now apply Rinv_0_lt_compat]. }
  rewrite (filter_ext_in _
             (fun i => Rleb (E i) x
                       && (if Nat.eqb (S i) kn then Rleb x (E (S i))
                           else Rltb x (E (S i))))).
  - apply histogram_bins; [exact Hk| |].
    + intros i _. unfold E. rewrite S_INR. lra.
    + unfold E. cbn [INR]. split; [lra|].
      replace (a + INR kn * ((b - a) / INR kn)) with b by (field; lra).
      lra.
  - intros i Hi. apply in_seq in Hi. unfold np.in_bin.
    rewrite !(nth_edges E) by lia. reflexivity.
Qed.

Lemma histogram_sum (d : list float) (k : Z)
    (observed : list Z) (bin_edges : list float) :
  np.histogram d k = Ok (observed, bin_edges) ->
  sum_Z observed = Z.of_nat (length d).
Proof.
  intros H. unfold np.histogram in H.
  destruct (Z.ltb_spec k 1) as [|Hk]; [discriminate|].
  assert (Hkn : (1 <= Z.to_nat k)%nat) by lia.
  destruct (match d with [] => Ok (Fin 0) | _ => np.min d end)
    as [lo|] eqn:Emin; [|discriminate].
  destruct (match d with [] => Ok (Fin 1) | _ => np.max d end)
    as [hi|] eqn:Emax; [|discriminate].
  cbn [bind] in H.
  destruct (is_finite lo) eqn:Flo; [|discriminate].
  destruct (is_finite hi) eqn:Fhi; [|discriminate].
  cbn [andb negb] in H. injection H as Hobs _. subst observed.
  apply bin_counts_total. intros y Hy.
  destruct d as [|y0 t]; [destruct Hy|].
  destruct (min_max_finite _ Emin Emax Flo Fhi) as [xs Hxs].
  rewrite Hxs in Hy, Emin, Emax. apply in_map_iff in Hy.
  destruct Hy as (x & <- & Hx).
  destruct xs as [|x0 xt]; [destruct Hx|].
  cbn [map np.min np.max] in Emin, Emax.
  rewrite fold_minimum_Fin in Emin. rewrite fold_maximum_Fin in Emax.
  injection Emin as <-. injection Emax as <-.
  destruct (fold_Rmin_le xt x0) as [L0 Lt].
  destruct (fold_Rmax_ge xt x0) as [U0 Ut].
  assert (Hb : fold_left Rmin xt x0 <= x <= fold_left Rmax xt x0).
  { destruct Hx as [<-|Hin]; [lra|]. split; auto. }
  cbn [feq fsub fadd].
  destruct (Reqb_spec (fold_left Rmin xt x0) (fold_left Rmax xt x0)).
  - apply one_bin_per_value; [exact Hkn|lra|lra].
  - apply one_bin_per_value; [exact Hkn|lra|lra].
Qed.

(** [np.histogram] loses no value: whenever it returns, the observed
    counts are non-negative, there are [k] of them between [k + 1] edges,
    and they add up to the number of values. *)
Theorem histogram_counts_total (d : list float) (k : Z)
    (observed : list Z) (bin_edges : list float) :
  np.histogram d k = Ok (observed, bin_edges) ->
  (1 <= k)%Z
  /\ length observed = Z.to_nat k
  /\ length bin_edges = S (Z.to_nat k)
  /\ Forall (fun c => (0 <= c)%Z) observed
  /\ sum_Z observed = Z.of_nat (length d).
Proof.
  intros H. destruct (histogram_lengths _ _ H) as [Hlo Hle].
  pose proof (histogram_sum _ _ H) as Hsum.
  unfold np.histogram in H.
  destruct (Z.ltb_spec k 1) as [|Hk]; [discriminate|].
  split; [exact Hk|]. split; [exact Hlo|]. split; [exact Hle|].
  split; [|exact Hsum].
  destruct (match d with [] => Ok (Fin 0) | _ => np.min d end)
    as [lo|]; [|discriminate].
  destruct (match d with [] => Ok (Fin 1) | _ => np.max d end)
    as [hi|]; [|discriminate].
  cbn [bind] in H.
  destruct (is_finite lo && is_finite hi); [|discriminate].
  cbn [negb] in H. injection H as Hobs _. subst observed.
  apply Forall_forall. intros c Hc. apply in_map_iff in Hc.
  destruct Hc as (i & <- & _). lia.
Qed.

Lemma histogram_counts_total_witness :
  exists observed bin_edges,
    np.histogram (map Fin [1; 2; 3; 4; 6]) 5 = Ok (observed, bin_edges)
    /\ sum_Z observed = 5%Z.
Proof.
  destruct (@histogram_finite_ok [1; 2; 3; 4; 6] 5%Z)
    as (observed & bin_edges & Hh); [discriminate|lia|].
  exists observed, bin_edges. split; [exact Hh|].
  apply (histogram_counts_total _ _ Hh).
Defined.

(** ** The chi-square block *)


Lemma merged_bins_shape (lib : Library) (self : StatisticalAnalyzer)
    (k : Z) (observed : list Z) (bin_edges : list float)
    (c : nat) (e : list float) (o : list Z) :
  sturges_bins (n self) = Ok k ->
  np.histogram (data self) k = Ok (observed, bin_edges) ->
  merge_bins (expected_frequencies lib self bin_edges, observed)
  = Ok (c, (e, o)) ->
  sum_Z o = sum_Z observed
  /\ length o = length e
  /\ (2 <= length e <= 20)%nat.
Proof.
  intros Hk Hh Hm.
  apply sturges_bins_range in Hk.
  destruct (histogram_lengths _ _ Hh) as [Ho He].
  assert (Hx : length (expected_frequencies lib self bin_edges)
               = Z.to_nat k).
  { unfold expected_frequencies. rewrite length_map, length_seq, He. lia. }
  destruct (merge_bins_result
              (expected_frequencies lib self bin_edges, observed))
    as (c' & e' & o' & Hm' & _ & Hl & Hol & Hc & Hz);
    [cbn [fst snd]; lia|].
  rewrite Hm in Hm'. injection Hm' as <- <- <-.
  cbn [fst snd] in *. split; [lia|]. split; [exact Hol|]. lia.
Qed.

(** In the chi-square block the observed frequencies keep their total
    through the merging of bins: after the loop they still add up to the
    number of values, over at least 2 and at most 20 bins, one expected
    frequency per bin. *)
Theorem chi2_observed_total (lib : Library) (self : StatisticalAnalyzer)
    (k : Z) (observed : list Z) (bin_edges : list float)
    (c : nat) (e : list float) (o : list Z) :
  sturges_bins (n self) = Ok k ->
  np.histogram (data self) k = Ok (observed, bin_edges) ->
  merge_bins (expected_frequencies lib self bin_edges, observed)
  = Ok (c, (e, o)) ->
  sum_Z o = Z.of_nat (length (data self))
  /\ length o = length e
  /\ (2 <= length e <= 20)%nat.
Proof.
  intros Hk Hh Hm.
  destruct (merged_bins_shape lib self Hk Hh Hm) as (Hsum & Hol & Hlen).
  pose proof (histogram_sum _ _ Hh) as Htot.
  split; [|split; [exact Hol|exact Hlen]].
  rewrite Hsum. exact Htot.
Qed.

Lemma chi2_observed_total_witness :
  exists a k observed bin_edges c e o,
    __init__ constant_library (map Fin [1; 2; 3; 4; 6]) = Ok a
    /\ sturges_bins (n a) = Ok k
    /\ np.histogram (data a) k = Ok (observed, bin_edges)
    /\ merge_bins (expected_frequencies constant_library a bin_edges,
                   observed) = Ok (c, (e, o))
    /\ sum_Z o = 5%Z.
Proof.
  destruct (init_nonempty constant_library (Fin 1) (map Fin [2; 3; 4; 6]))
    as [r Hr].
  set (a := {| data := Fin 1 :: map Fin [2; 3; 4; 6];
               n := length (Fin 1 :: map Fin [2; 3; 4; 6]);
               results := r |}) in *.
  assert (Hk : sturges_bins (n a)
               = Ok (Z.max 5 (Z.min (Zfloor (sturges_real (n a))) 20)))
    by (apply sturges_bins_floor; simpl; lia).
  destruct (@histogram_finite_ok [1; 2; 3; 4; 6]
              (Z.max 5 (Z.min (Zfloor (sturges_real (n a))) 20)))
    as (observed & bin_edges & Hh); [discriminate|lia|].
  destruct (histogram_lengths _ _ Hh) as [Ho He].
  destruct (merge_bins_result
              (expected_frequencies constant_library a bin_edges, observed))
    as (c & e & o & Hm & _).
  { cbn [fst snd]. unfold expected_frequencies.
    rewrite length_map, length_seq, He. lia. }
  exists a. do 6 eexists. split; [exact Hr|]. split; [exact Hk|].
  split; [exact Hh|]. split; [exact Hm|].
  exact (proj1 (chi2_observed_total constant_library a Hk Hh Hm)).
Defined.

(** The entry of the chi-square test: its degrees of freedom are the number
    of bins left after merging less three, between -1 and 17; with no
    positive degree of freedom the p-value is recorded as 0 and the sample
    as not normal; otherwise the sample is normal exactly when the p-value
    exceeds 0.05. *)
Theorem chi2_entry_shape (lib : Library) (self : StatisticalAnalyzer)
    (entry : normality_entry) :
  chi2_block lib self = Ok entry ->
  exists stat p df is_normal,
    entry = Chi2Test stat p df is_normal
    /\ (-1 <= df <= 17)%Z
    /\ ((df <= 0)%Z -> p = Fin 0 /\ is_normal = false)
    /\ ((0 < df)%Z ->
        p = fsub (Fin 1) (chi2_cdf lib stat (of_Z df))
        /\ is_normal = fgt p (lit 5 100)).
Proof.
  unfold chi2_block.
  destruct (sturges_bins (n self)) as [k|] eqn:Hk; [|discriminate].
  cbn [bind].
  destruct (np.histogram (data self) k) as [[observed bin_edges]|] eqn:Hh;
    [|discriminate].
  cbn [bind].
  destruct (merge_bins (expected_frequencies lib self bin_edges, observed))
    as [[c [e o]]|] eqn:Hm; [|discriminate].
  cbn [bind]. intros H. injection H as <-.
  destruct (merged_bins_shape lib self Hk Hh Hm) as (_ & _ & Hlen).
  do 4 eexists. split; [reflexivity|]. split; [lia|].
  split; intros Hdf.
  - destruct (Z.ltb_spec 0 (Z.of_nat (length e) - 3)); [lia|]. auto.
  - destruct (Z.ltb_spec 0 (Z.of_nat (length e) - 3)); [|lia]. auto.
Qed.

Lemma finite_sample_chi2_ok (lib : Library) (xs : list R)
    (a : StatisticalAnalyzer) :
  __init__ lib (map Fin xs) = Ok a ->
  exists entry, chi2_block lib a = Ok entry.
Proof.
  intros Hinit. destruct (init_results _ _ Hinit) as (_ & Hd & Hn).
  assert (Hx : xs <> []).
  { intros ->. discriminate Hinit. }
  assert (Hlen : (1 <= n a)%nat).
  { rewrite Hn, length_map. destruct xs; [congruence|simpl; lia]. }
  unfold chi2_block. rewrite (sturges_bins_floor Hlen). cbn [bind].
  rewrite Hd.
  destruct (@histogram_finite_ok xs
              (Z.max 5 (Z.min (Zfloor (sturges_real (n a))) 20)))
    as (observed & bin_edges & Hh); [exact Hx|lia|].
  rewrite Hh. cbn [bind].
  destruct (histogram_lengths _ _ Hh) as [Ho He].
  destruct (merge_bins_result
              (expected_frequencies lib a bin_edges, observed))
    as (c & e & o & Hm & _).
  { cbn [fst snd]. unfold expected_frequencies.
    rewrite length_map, length_seq, He. lia. }
  rewrite Hm. cbn [bind]. eauto.
Qed.



Lemma chi2_entry_shape_witness :
  exists a stat p df is_normal,
    __init__ constant_library (map Fin [1; 2; 3; 4; 6]) = Ok a
    /\ chi2_block constant_library a = Ok (Chi2Test stat p df is_normal)
    /\ (-1 <= df <= 17)%Z.
Proof.
  destruct (init_nonempty constant_library (Fin 1) (map Fin [2; 3; 4; 6]))
    as [r Hr].
  destruct (@finite_sample_chi2_ok constant_library [1; 2; 3; 4; 6] _ Hr)
    as [entry He].
  destruct (chi2_entry_shape _ _ He)
    as (stat & p & df & b & Hentry & Hdf & _).
  eexists. exists stat, p, df, b. split; [exact Hr|].
  split; [rewrite He, Hentry; reflexivity|exact Hdf].
Defined.

(** ** The dictionary of [test_normality] *)

Lemma smirnov_block_ok (lib : Library) (self : StatisticalAnalyzer) :
  data self <> [] -> exists entry, smirnov_block lib self = Ok entry.
Proof.
  intros Hd. unfold smirnov_block, smirnov_D, d_plus, d_minus.
  destruct (data self) as [|y t]; [congruence|].
  cbn [length seq map py_max bind]. eauto.
Qed.

Lemma test_normality_keys (lib : Library) (self : StatisticalAnalyzer) :
  (1 <= n self)%nat ->
  exists tests,
    test_normality lib self = Ok tests
    /\ keys tests
       = (if (n self <=? 50)%nat
          then ["shapiro"; "romanovsky"; "chi2"; "ks"; "smirnov"]
          else ["shapiro"; "chi2"; "ks"; "smirnov"])%string
    /\ dict_get tests "shapiro" = Some (try_except (shapiro_block lib self))
    /\ dict_get tests "chi2" = Some (try_except (chi2_block lib self))
    /\ dict_get tests "ks" = Some (try_except (ks_block lib self))
    /\ dict_get tests "smirnov" = Some (try_except (smirnov_block lib self))
    /\ ((n self <= 50)%nat ->
        exists r, dict_get tests "romanovsky" = Some (Some r))
    /\ ((50 < n self)%nat -> dict_get tests "romanovsky" = None).
Proof.
  intros Hn. unfold test_normality.
  destruct (Nat.leb_spec (n self) 50) as [Hle|Hgt].
  - unfold romanovsky_block. rewrite py_div_nat_ok by exact Hn.
    cbn [bind]. eexists. split; [reflexivity|].
    split; [reflexivity|]. split; [reflexivity|]. split; [reflexivity|].
    split; [reflexivity|]. split; [reflexivity|].
    split; [intros _; eexists; reflexivity|]. lia.
  - cbn [bind]. eexists. split; [reflexivity|].
    split; [reflexivity|]. split; [reflexivity|]. split; [reflexivity|].
    split; [reflexivity|]. split; [reflexivity|].
    split; [lia|]. intros _; reflexivity.
Qed.

(** [test_normality] never fails on an analyzer built by the constructor,
    whatever the data.  Its dictionary holds the keys shapiro, chi2, ks and
    smirnov in this order, with romanovsky after shapiro exactly when
    [n <= 50]; a test that raised is recorded as [None] and leaves the
    others as they are; the Romanovsky and the Smirnov entries are never
    [None]. *)
Theorem test_normality_total (lib : Library) (d : list float)
    (a : StatisticalAnalyzer) :
  __init__ lib d = Ok a ->
  exists tests,
    test_normality lib a = Ok tests
    /\ keys tests
       = (if (length d <=? 50)%nat
          then ["shapiro"; "romanovsky"; "chi2"; "ks"; "smirnov"]
          else ["shapiro"; "chi2"; "ks"; "smirnov"])%string
    /\ dict_get tests "shapiro" = Some (try_except (shapiro_block lib a))
    /\ dict_get tests "chi2" = Some (try_except (chi2_block lib a))
    /\ dict_get tests "ks" = Some (try_except (ks_block lib a))
    /\ (exists s, dict_get tests "smirnov" = Some (Some s))
    /\ ((length d <= 50)%nat ->
        exists r, dict_get tests "romanovsky" = Some (Some r))
    /\ ((50 < length d)%nat -> dict_get tests "romanovsky" = None).
Proof.
  intros Hinit. destruct (init_results _ _ Hinit) as (_ & Hd & Hn).
  assert (Hne : d <> []) by (intros ->; discriminate Hinit).
  assert (Hlen : (1 <= n a)%nat).
  { rewrite Hn. destruct d; [congruence|simpl; lia]. }
  destruct (test_normality_keys lib a Hlen)
    as (tests & Ht & Hk & Hsh & Hchi & Hks & Hsm & Hro & Hnr).
  rewrite Hn in Hk, Hro, Hnr.
  exists tests. split; [exact Ht|]. split; [exact Hk|].
  split; [exact Hsh|]. split; [exact Hchi|]. split; [exact Hks|].
  split; [|split; assumption].
  destruct (@smirnov_block_ok lib a) as [s Hs]; [rewrite Hd; exact Hne|].
  exists s. rewrite Hsm, Hs. reflexivity.
Qed.

Lemma test_normality_total_witness :
  exists a tests,
    __init__ constant_library [Fin 1; NaN; PInf] = Ok a
    /\ test_normality constant_library a = Ok tests
    /\ keys tests
       = ["shapiro"; "romanovsky"; "chi2"; "ks"; "smirnov"]%string.
Proof.
  destruct (init_nonempty constant_library (Fin 1) [NaN; PInf]) as [r Hr].
  destruct (test_normality_total _ _ Hr) as (tests & Ht & Hk & _).
  eexists. exists tests. split; [exact Hr|]. split; [exact Ht|exact Hk].
Defined.

(** ** Bounds of the Smirnov statistic *)





(** ** The dictionary of [detect_outliers] *)

Lemma selected_false (method name : string) :
  method <> name -> method <> "all"%string -> selected method name = false.
Proof.
  intros H1 H2. unfold selected.
  apply String.eqb_neq in H1. apply String.eqb_neq in H2.
  now rewrite H1, H2.
Qed.

(** The methods of [detect_outliers], in the order of its blocks. *)
Lemma detect_outliers_selected (lib : Library) (self : StatisticalAnalyzer)
    (m : string) (d : dict outlier_entry) :
  detect_outliers lib self (Some m) = Ok d ->
  keys d
  = filter (selected m)
           ["iqr"; "3sigma"; "grubbs"; "sharlie"; "irwin"; "chauvenet"]%string.
Proof.
  unfold detect_outliers. cbn [filter].
  destruct (selected m "iqr"); destruct (selected m "3sigma");
    destruct (selected m "grubbs"); destruct (selected m "sharlie");
    destruct (selected m "irwin"); destruct (selected m "chauvenet");
    try (destruct (grubbs_method lib self) as [g|]; [|discriminate]);
    try (destruct (irwin_method self) as [i|]; [|discriminate]);
    cbn; intros H; injection H as <-; reflexivity.
Qed.

(** [detect_outliers] with a selector: the keys of the result are the names
    of the six methods that the selector names, all six for ['all'], in the
    order iqr, 3sigma, grubbs, sharlie, irwin, chauvenet; a selector that
    names no method gives the empty dictionary and never fails. *)
Theorem detect_outliers_keys (lib : Library) (self : StatisticalAnalyzer)
    (m : string) :
  (forall d, detect_outliers lib self (Some m) = Ok d ->
     keys d
     = filter (selected m)
              ["iqr"; "3sigma"; "grubbs"; "sharlie"; "irwin";
               "chauvenet"]%string)
  /\ (~ In m ["iqr"; "3sigma"; "grubbs"; "sharlie"; "irwin"; "chauvenet";
              "all"]%string ->
      detect_outliers lib self (Some m) = Ok []).
Proof.
  split; [apply detect_outliers_selected|].
  intros Hm. unfold detect_outliers.
  rewrite !selected_false; try reflexivity;
    intros ->; apply Hm; cbn; tauto.
Qed.

Lemma detect_outliers_keys_witness :
  detect_outliers constant_library
    {| data := [Fin 1; Fin 2]; n := 2;
       results := res.mk (Fin 0) (Fin 1) (Fin 1) (Fin 1) (Fin 1)
         (Fin 1) (Fin 2) (Fin 1) (Fin 0) (Fin 0) (Fin 0) (Fin 0)
         (Fin 0) (Fin 0) None None (Fin 0) (Fin 0) (Fin 0) (Fin 0)
         (Fin 0) (Fin 0) |}
    (Some "zscore"%string)
  = Ok [].
Proof.
  apply detect_outliers_keys. cbn.
  intros H; repeat (destruct H as [H|H]; [discriminate H|]); exact H.
Defined.

(** For an analyzer built by the constructor, [detect_outliers('all')]
    returns if and only if the sample has at least two values: on a single
    value the Irwin block takes [np.max] of an empty array and the whole
    call fails with [ValueError], as does the selector ['irwin']. *)
Theorem detect_outliers_all_needs_two (lib : Library) (d : list float)
    (a : StatisticalAnalyzer) :
  __init__ lib d = Ok a ->
  (is_ok (detect_outliers lib a (Some "all"%string)) = true
   <-> (2 <= length d)%nat)
  /\ (length d = 1%nat ->
      detect_outliers lib a (Some "all"%string) = Raise ValueError
      /\ detect_outliers lib a (Some "irwin"%string) = Raise ValueError).
Proof.
  intros Hinit. destruct (init_results _ _ Hinit) as (_ & Hd & Hn).
  assert (Hne : d <> []) by (intros ->; discriminate Hinit).
  assert (Hone : length d = 1%nat ->
            detect_outliers lib a (Some "all"%string) = Raise ValueError
            /\ detect_outliers lib a (Some "irwin"%string)
               = Raise ValueError).
  { intros H1. destruct d as [|y [|y' t]]; try discriminate H1.
    assert (Hir : irwin_method a = Raise ValueError).
    { unfold irwin_method. rewrite Hd. reflexivity. }
    split.
    - unfold detect_outliers. rewrite !selected_all.
      destruct (@grubbs_method_ok lib a) as [g ->];
        [rewrite Hn, Hd; reflexivity|rewrite Hd; simpl; lia|].
      cbn [bind]. rewrite Hir. reflexivity.
    - unfold detect_outliers.
      change (selected "irwin" "iqr") with false.
      change (selected "irwin" "3sigma") with false.
      change (selected "irwin" "grubbs") with false.
      change (selected "irwin" "sharlie") with false.
      change (selected "irwin" "irwin") with true.
      cbn [bind]. rewrite Hir. reflexivity. }
  split; [|exact Hone]. split.
  - intros Hok. destruct d as [|y [|y' t]]; [congruence| |simpl; lia].
    destruct (Hone eq_refl) as [Hall _]. rewrite Hall in Hok.
    discriminate Hok.
  - intros H2. unfold detect_outliers. rewrite !selected_all.
    destruct (@grubbs_method_ok lib a) as [g ->];
      [rewrite Hn, Hd; reflexivity|rewrite Hd; lia|].
    destruct (irwin_method_ok a) as [i ->]; [rewrite Hd; exact H2|].
    reflexivity.
Qed.

Lemma detect_outliers_all_needs_two_witness :
  exists a,
    __init__ constant_library [Fin 7] = Ok a
    /\ detect_outliers constant_library a (Some "all"%string)
       = Raise ValueError.
Proof.
  destruct (init_nonempty constant_library (Fin 7) []) as [r Hr].
  eexists. split; [exact Hr|].
  apply (detect_outliers_all_needs_two _ _ Hr). reflexivity.
Defined.

(** ** The entries built from a mask *)

Lemma where_from_select (A : Type) (default : A) (l : list A) :
  forall (prefix : list A) (mask : list bool),
    length mask = length l ->
    np.select l mask
    = map (fun i => nth i (prefix ++ l) default)
          (np.where_from (length prefix) mask).
Proof.
  induction l as [|x t IH]; intros prefix mask Hlen.
  - destruct mask; [reflexivity|discriminate Hlen].
  - destruct mask as [|b mask']; [discriminate Hlen|].
    cbn [np.select np.where_from].
    assert (Hrec : np.select t mask'
                   = map (fun i => nth i (prefix ++ x :: t) default)
                         (np.where_from (S (length prefix)) mask')).
    { specialize (IH (prefix ++ [x]) mask').
      rewrite length_app, <- app_assoc in IH. cbn [length app] in IH.
      rewrite Nat.add_1_r in IH. apply IH. simpl in Hlen. lia. }
    destruct b; [|exact Hrec].
    cbn [map]. rewrite nth_middle. f_equal. exact Hrec.
Qed.

Lemma where_from_sorted (mask : list bool) :
  forall i,
    StronglySorted lt (np.where_from i mask)
    /\ Forall (fun j => (i <= j < i + length mask)%nat)
              (np.where_from i mask).
Proof.
  induction mask as [|b t IH]; intros i; cbn [np.where_from].
  - split; constructor.
  - destruct (IH (S i)) as [Hs Hf].
    assert (Hf' : Forall (fun j => (i <= j < i + length (b :: t))%nat)
                         (np.where_from (S i) t)).
    { eapply Forall_impl; [|exact Hf]. cbn [length]. intros j Hj. lia. }
    destruct b; [|split; assumption]. split.
    + constructor; [exact Hs|].
      eapply Forall_impl; [|exact Hf]. intros j Hj. cbn beta in Hj. lia.
    + constructor; [cbn [length]; lia|exact Hf'].
Qed.

Lemma mask_entry (d : list float) (mask : list bool) :
  length mask = length d ->
  np.select d mask = map (fun i => nth i d NaN) (np.where_ mask)
  /\ np.count mask = length (np.where_ mask)
  /\ StronglySorted lt (np.where_ mask)
  /\ Forall (fun i => (i < length d)%nat) (np.where_ mask).
Proof.
  intros Hlen. unfold np.where_. split.
  - exact (where_from_select NaN d [] mask Hlen).
  - split; [symmetry; apply where_from_length|].
    destruct (where_from_sorted mask 0) as [Hs Hf]. split; [exact Hs|].
    eapply Forall_impl; [|exact Hf]. intros j Hj. cbn beta in Hj. lia.
Qed.

(** The entries of the IQR, 3-sigma and Chauvenet methods are consistent:
    the flagged indices are increasing positions of the data, the flagged
    values are the data at these positions, in the same order, and the
    count is their number. *)
Theorem flagged_points_consistent (lib : Library)
    (self : StatisticalAnalyzer) (e : outlier_entry) :
  e = iqr_method self \/ e = sigma3_method self
  \/ e = chauvenet_method lib self ->
  flagged_values e
  = map (fun i => nth i (data self) NaN) (flagged_indices e)
  /\ flagged_count e = length (flagged_indices e)
  /\ length (flagged_values e) = flagged_count e
  /\ StronglySorted lt (flagged_indices e)
  /\ Forall (fun i => (i < length (data self))%nat) (flagged_indices e).
Proof.
  intros He.
  assert (Hgen : forall mask, length mask = length (data self) ->
    np.select (data self) mask
    = map (fun i => nth i (data self) NaN) (np.where_ mask)
    /\ length (np.where_ mask) = length (np.where_ mask)
    /\ length (np.select (data self) mask) = length (np.where_ mask)
    /\ StronglySorted lt (np.where_ mask)
    /\ Forall (fun i => (i < length (data self))%nat) (np.where_ mask)).
  { intros mask Hlen. destruct (mask_entry (data self) mask Hlen)
      as (Hv & _ & Hs & Hf).
    split; [exact Hv|]. split; [reflexivity|].
    split; [rewrite Hv; apply length_map|]. split; assumption. }
  destruct He as [-> | [-> | ->]].
  - unfold iqr_method. cbn [flagged_values flagged_indices flagged_count].
    apply Hgen. unfold outside. apply length_map.
  - unfold sigma3_method. cbn [flagged_values flagged_indices flagged_count].
    apply Hgen. unfold outside. apply length_map.
  - unfold chauvenet_method.
    cbn [flagged_values flagged_indices flagged_count].
    set (mask := map _ (map _ (map _ (z_scores self)))).
    assert (Hlen : length mask = length (data self)).
    { unfold mask, z_scores. now rewrite !length_map. }
    destruct (mask_entry (data self) mask Hlen) as (Hv & Hc & Hs & Hf).
    split; [exact Hv|]. split; [exact Hc|].
    split; [rewrite Hv, Hc; apply length_map|]. split; assumption.
Qed.

Lemma flagged_points_consistent_witness :
  let self := {| data := [Fin 1; Fin 2; Fin 100]; n := 3;
                 results := res.mk (Fin 2) (Fin 1) (Fin 1) (Fin 1) (Fin 1)
                   (Fin 1) (Fin 100) (Fin 99) (Fin 2) (Fin 1) (Fin 2) (Fin 0)
                   (Fin 0) (Fin 0) None None (Fin 0) (Fin 0) (Fin 0) (Fin 0)
                   (Fin 0) (Fin 0) |} in
  length (flagged_values (sigma3_method self))
  = flagged_count (sigma3_method self).
Proof.
  intros self.
  apply (@flagged_points_consistent constant_library self
           (sigma3_method self)).
  right. left. reflexivity.
Defined.

(** ** The Grubbs statistic and its companions *)




Lemma filter_nonempty (A : Type) (f : A -> bool) (l : list A) :
  (1 <= length (filter f l))%nat <-> exists x, In x l /\ f x = true.
Proof.
  split.
  - destruct (filter f l) as [|x t] eqn:E; cbn [length]; [lia|].
    intros _. exists x. apply filter_In. rewrite E. left. reflexivity.
  - intros (x & Hin & Hf).
    assert (Hx : In x (filter f l)) by (apply filter_In; auto).
    destruct (filter f l); [destruct Hx|cbn [length]; lia].
Qed.










(** ** The Romanovsky rows of the outliers sheet *)




(** ** Sturges' rule in the charts *)

Lemma sturges_real_ge_1 (k : nat) : (1 <= k)%nat -> 1 <= sturges_real k.
Proof.
  intros Hk. pose proof (log10_nonneg Hk) as Hlog. unfold sturges_real.
  assert (0 <= 3322 / 1000 * (ln (INR k) / ln 10))
    by (apply Rmult_le_pos; lra).
  lra.
Qed.

Lemma sturges_real_monotone (n m : nat) :
  (1 <= n)%nat -> (n <= m)%nat -> sturges_real n <= sturges_real m.
Proof.
  intros Hn Hnm. pose proof ln_10_pos as H10. unfold sturges_real.
  assert (Hpos : 0 < INR n) by (apply lt_0_INR; lia).
  assert (Hle : INR n <= INR m) by (apply le_INR; lia).
  assert (Hln : ln (INR n) <= ln (INR m)).
  { destruct Hle as [Hlt|Heq]; [left; apply ln_increasing; lra|].
    rewrite Heq. lra. }
  assert (Hdiv : ln (INR n) / ln 10 <= ln (INR m) / ln 10).
  { unfold Rdiv. apply Rmult_le_compat_r; [|exact Hln].
    left. now apply Rinv_0_lt_compat. }
  lra.
Qed.

Lemma sturges_argument (k : nat) :
  (1 <= k)%nat ->
  fadd (Fin 1) (fmul (lit 3322 1000) (np.log10 (of_nat k)))
  = Fin (sturges_real k).
Proof.
  intros Hk. assert (Hpos : 0 < INR k) by (apply lt_0_INR; lia).
  unfold np.log10, of_nat, by_sign, lit, sturges_real.
  rewrite (Rltb_false (a := INR k)) by lra.
  rewrite (Reqb_false (a := INR k)) by lra.
  reflexivity.
Qed.

Lemma chart_bins_floor (k : nat) :
  (1 <= k)%nat -> chart_bins k = Ok (Zfloor (sturges_real k)).
Proof.
  intros Hk. unfold chart_bins. rewrite (sturges_argument Hk).
  cbn [py_int]. unfold Rtrunc.
  pose proof (sturges_real_ge_1 Hk).
  rewrite Rltb_false by lra. reflexivity.
Qed.

Lemma plot_bins_ceil (k : nat) :
  (1 <= k)%nat -> plot_bins k = Ok (Zceil (sturges_real k)).
Proof.
  intros Hk. unfold plot_bins. rewrite (sturges_argument Hk).
  cbn [np_ceil py_int]. unfold Rtrunc.
  pose proof (sturges_real_ge_1 Hk) as H1.
  pose proof (Zceil_bound (sturges_real k)) as Hc.
  rewrite Rltb_false by lra. now rewrite ZfloorZ.
Qed.

Lemma floor_ceil_gap (r : R) : (Zfloor r <= Zceil r <= Zfloor r + 1)%Z.
Proof.
  pose proof (Zfloor_bound r) as Hf. pose proof (Zceil_bound r) as Hc.
  split.
  - apply le_IZR. lra.
  - assert (Hlt : (Zceil r - 1 < Zfloor r + 1)%Z).
    { apply lt_IZR. rewrite minus_IZR, plus_IZR. lra. }
    lia.
Qed.

(** The three places that choose a number of histogram bins from the sample
    size agree up to rounding: for at least one value, the charts sheet
    takes the integer part [c >= 1] of [1 + 3.322 * log10(n)], the plot of
    [report.py] rounds the same number up to [p], which is [c] or [c + 1]
    and is [c] exactly when the number is whole, and the chi-square test
    uses [c] clamped to the range from 5 to 20. *)
Theorem histogram_bin_counts_agree (n : nat) :
  (1 <= n)%nat ->
  exists c p,
    chart_bins n = Ok c
    /\ plot_bins n = Ok p
    /\ (1 <= c)%Z
    /\ (c <= p <= c + 1)%Z
    /\ (p = c <-> IZR c = sturges_real n)
    /\ sturges_bins n = Ok (Z.max 5 (Z.min c 20)).
Proof.
  intros Hn. exists (Zfloor (sturges_real n)), (Zceil (sturges_real n)).
  split; [apply (chart_bins_floor Hn)|].
  split; [apply (plot_bins_ceil Hn)|].
  pose proof (sturges_real_ge_1 Hn) as H1.
  pose proof (Zfloor_bound (sturges_real n)) as Hf.
  pose proof (Zceil_bound (sturges_real n)) as Hc.
  split; [apply Zfloor_lub; exact H1|].
  split; [apply floor_ceil_gap|].
  split; [|apply (sturges_bins_floor Hn)].
  split.
  - intros Heq. rewrite Heq in Hc. lra.
  - intros Heq. apply Zceil_eq. rewrite Heq. lra.
Qed.

Lemma histogram_bin_counts_agree_witness :
  exists c p,
    chart_bins 1 = Ok c /\ plot_bins 1 = Ok p /\ (c <= p <= c + 1)%Z.
Proof.
  assert (H1 : (1 <= 1)%nat) by lia.
  destruct (@histogram_bin_counts_agree 1 H1)
    as (c & p & Hc & Hp & _ & Hcp & _).
  exists c, p. split; [exact Hc|]. split; [exact Hp|exact Hcp].
Defined.

(** A larger sample never gets fewer bins: the bin count of the chi-square
    test, that of the charts sheet and that of the plot of [report.py] do
    not decrease when the sample size grows. *)
Theorem bin_counts_monotone (n m : nat) :
  (1 <= n)%nat ->
  (n <= m)%nat ->
  exists kn km cn cm pn pm,
    sturges_bins n = Ok kn /\ sturges_bins m = Ok km /\ (kn <= km)%Z
    /\ chart_bins n = Ok cn /\ chart_bins m = Ok cm /\ (cn <= cm)%Z
    /\ plot_bins n = Ok pn /\ plot_bins m = Ok pm /\ (pn <= pm)%Z.
Proof.
  intros Hn Hnm. assert (Hm : (1 <= m)%nat) by lia.
  pose proof (sturges_real_monotone Hn Hnm) as Hle.
  pose proof (Zfloor_le _ _ Hle) as Hfl.
  pose proof (Zceil_le _ _ Hle) as Hcl.
  do 6 eexists.
  split; [apply (sturges_bins_floor Hn)|].
  split; [apply (sturges_bins_floor Hm)|].
  split; [lia|].
  split; [apply (chart_bins_floor Hn)|].
  split; [apply (chart_bins_floor Hm)|].
  split; [exact Hfl|].
  split; [apply (plot_bins_ceil Hn)|].
  split; [apply (plot_bins_ceil Hm)|exact Hcl].
Qed.

Lemma bin_counts_monotone_witness :
  exists kn km,
    sturges_bins 5 = Ok kn /\ sturges_bins 100 = Ok km /\ (kn <= km)%Z.
Proof.
  assert (H1 : (1 <= 5)%nat) by lia.
  assert (H2 : (5 <= 100)%nat) by lia.
  destruct (@bin_counts_monotone 5 100 H1 H2)
    as (kn & km & _ & _ & _ & _ & Hn & Hm & Hle & _).
  exists kn, km. split; [exact Hn|]. split; [exact Hm|exact Hle].
Defined.

(** ** Loading the data sets of a report *)

Section ReportProperties.

Variable parse_line : string -> option float.

Lemma parse_input_ok (contents : option (list string)) (values : list float) :
  parse_input parse_line contents = Ok values <->
  exists lines,
    contents = Some lines
    /\ values = collect_values parse_line lines
    /\ (5 <= length values)%nat.
Proof.
  unfold parse_input. split.
  - destruct contents as [lines|]; [|discriminate].
    destruct (Nat.ltb_spec (length (collect_values parse_line lines)) 5);
      [discriminate|].
    intros H0. injection H0 as <-. exists lines. auto.
  - intros (lines & -> & -> & Hlen).
    destruct (Nat.ltb_spec (length (collect_values parse_line lines)) 5);
      [lia|reflexivity].
Qed.

Lemma load_datasets_in (files : list (option (list string)))
    (d : list float) :
  In d (load_datasets parse_line files) <->
  exists fp, In fp files /\ parse_input parse_line fp = Ok d.
Proof.
  induction files as [|fp rest IH]; cbn [load_datasets].
  - split; [intros []|intros (fp & [] & _)].
  - destruct (parse_input parse_line fp) as [values|e] eqn:E.
    + cbn [In]. rewrite IH. split.
      * intros [<-|(fp' & Hin & Hp)];
          [exists fp; split; [now left|exact E]
          |exists fp'; split; [now right|exact Hp]].
      * intros (fp' & [<-|Hin] & Hp);
          [left; congruence|right; exists fp'; auto].
    + rewrite IH. split.
      * intros (fp' & Hin & Hp). exists fp'. split; [now right|exact Hp].
      * intros (fp' & [<-|Hin] & Hp); [congruence|exists fp'; auto].
Qed.

(** The data sets that [generate_pro_report] works on are exactly the value
    lists of the files that exist and hold at least five values: a file
    that is missing or holds fewer is skipped, not reported on. *)
Theorem loaded_datasets_are_valid_files (files : list (option (list string)))
    (d : list float) :
  In d (load_datasets parse_line files) <->
  exists lines,
    In (Some lines) files
    /\ d = collect_values parse_line lines
    /\ (5 <= length d)%nat.
Proof.
  rewrite load_datasets_in. split.
  - intros (fp & Hin & Hp). apply parse_input_ok in Hp.
    destruct Hp as (lines & -> & Hd & Hlen). exists lines. auto.
  - intros (lines & Hin & Hd & Hlen). exists (Some lines).
    split; [exact Hin|]. apply parse_input_ok. exists lines. auto.
Qed.

(** [generate_pro_report] returns without creating a workbook exactly when
    [parse_input] fails on every file it was given. *)
Theorem report_skipped_iff_no_file_loads
    (files : list (option (list string))) :
  generate_pro_report parse_line files = None <->
  forall fp, In fp files -> is_ok (parse_input parse_line fp) = false.
Proof.
  unfold generate_pro_report.
  destruct (load_datasets parse_line files) as [|d ds] eqn:E.
  - split; [intros _|reflexivity]. intros fp Hin.
    destruct (parse_input parse_line fp) as [values|e] eqn:Ep; [|reflexivity].
    assert (Hd : In values (load_datasets parse_line files))
      by (apply load_datasets_in; exists fp; auto).
    rewrite E in Hd. destruct Hd.
  - split; [discriminate|]. intros Hall. exfalso.
    assert (Hd : In d (load_datasets parse_line files))
      by (rewrite E; now left).
    apply load_datasets_in in Hd. destruct Hd as (fp & Hin & Hp).
    specialize (Hall fp Hin). rewrite Hp in Hall. discriminate.
Qed.

Lemma length_concat_ge (ds : list (list float)) (d : list float) :
  In d ds -> (length d <= length (concat ds))%nat.
Proof.
  induction ds as [|d0 ds IH]; [intros []|].
  cbn [concat]. rewrite length_app. intros [<-|Hin]; [lia|].
  specialize (IH Hin). lia.
Qed.

(** Every sample size on the summary sheet of the report, that of the
    combined sample included, is at least five, and the summary has one
    line per loaded data set plus one for the combined sample when at least
    two were loaded. *)
Theorem summary_sizes_at_least_five (files : list (option (list string)))
    (sizes : list nat) :
  generate_pro_report parse_line files = Some sizes ->
  (forall n, In n sizes -> (5 <= n)%nat)
  /\ length sizes
     = (length (load_datasets parse_line files)
        + (if (2 <=? length (load_datasets parse_line files))%nat
           then 1 else 0))%nat.
Proof.
  unfold generate_pro_report.
  assert (Hall : forall d, In d (load_datasets parse_line files) ->
                           (5 <= length d)%nat).
  { intros d Hd. apply load_datasets_in in Hd.
    destruct Hd as (fp & _ & Hp). apply parse_input_ok in Hp.
    destruct Hp as (lines & _ & _ & Hlen). exact Hlen. }
  destruct (load_datasets parse_line files) as [|d ds] eqn:E; [discriminate|].
  intros H0. injection H0 as <-. unfold summary_sizes. split.
  - intros n Hn. apply in_app_or in Hn. destruct Hn as [Hn|Hn].
    + apply in_map_iff in Hn. destruct Hn as (d' & <- & Hin). auto.
    + destruct (2 <=? length (d :: ds))%nat; [|destruct Hn].
      destruct Hn as [<-|[]].
      pose proof (Hall d (or_introl eq_refl)) as H5.
      pose proof (@length_concat_ge (d :: ds) d (or_introl eq_refl)). lia.
  - rewrite length_app, length_map.
    destruct (2 <=? length (d :: ds))%nat; reflexivity.
Qed.

End ReportProperties.

Lemma loaded_datasets_are_valid_files_witness :
  let parse_line := fun _ : string => Some (Fin 1) in
  let lines := ["a"; "b"; "c"; "d"; "e"]%string in
  In (collect_values parse_line lines)
     (load_datasets parse_line [None; Some lines]).
Proof.
  intros parse_line lines.
  apply (proj2 (loaded_datasets_are_valid_files parse_line
                  [None; Some lines] (collect_values parse_line lines))).
  exists lines. split; [right; left; reflexivity|].
  split; [reflexivity|]. simpl. lia.
Defined.

Lemma report_skipped_iff_no_file_loads_witness :
  generate_pro_report (fun _ : string => Some (Fin 1))
    [None; Some ["a"; "b"]%string] = None.
Proof.
  apply (proj2 (report_skipped_iff_no_file_loads
                  (fun _ : string => Some (Fin 1))
                  [None; Some ["a"; "b"]%string])).
  intros fp [<-|[<-|[]]]; reflexivity.
Defined.

Lemma summary_sizes_at_least_five_witness :
  generate_pro_report (fun _ : string => Some (Fin 1))
    [Some ["a"; "b"; "c"; "d"; "e"]%string; None;
     Some ["a"; "b"; "c"; "d"; "e"]%string]
  = Some [5; 5; 10]%nat
  /\ (5 <= 10)%nat.
Proof.
  split; [reflexivity|].
  apply (proj1 (@summary_sizes_at_least_five
                  (fun _ : string => Some (Fin 1))
                  [Some ["a"; "b"; "c"; "d"; "e"]%string; None;
                   Some ["a"; "b"; "c"; "d"; "e"]%string]
                  [5; 5; 10]%nat eq_refl)).
  right. right. left. reflexivity.
Defined.

(** ** The counts of the conclusion sheet *)

Lemma filter_length_le2 (A : Type) (f g : A -> bool) (l : list A) :
  (forall x, f x = true -> g x = true) ->
  (length (filter f l) <= length (filter g l))%nat.
Proof.
  intros Hfg. induction l as [|x t IH]; [reflexivity|].
  cbn [filter]. destruct (f x) eqn:Ef.
  - rewrite (Hfg x Ef). simpl. lia.
  - destruct (g x); simpl; lia.
Qed.

Lemma dict_get_in (V : Type) (d : dict V) (k : string) (v : V) :
  dict_get d k = Some v -> In v (map snd d).
Proof.
  induction d as [|[k' v'] t IH]; [discriminate|].
  cbn [dict_get map snd]. destruct (String.eqb k k').
  - intros H. injection H as ->. now left.
  - intros H. right. auto.
Qed.

Lemma tests_counts (tests : dict (option normality_entry)) :
  (normal_tests_passed tests <= total_tests tests)%nat
  /\ (total_tests tests <= length (keys tests))%nat
  /\ (forall k e, dict_get tests k = Some (Some e) ->
                  (1 <= total_tests tests)%nat).
Proof.
  unfold normal_tests_passed, total_tests, keys. split; [|split].
  - apply filter_length_le2. intros [e|]; [reflexivity|discriminate].
  - rewrite length_map, <- (length_map snd tests). apply filter_length_le.
  - intros k e Hget. apply dict_get_in in Hget.
    apply (proj2 (filter_nonempty _ _)). exists (Some e). auto.
Qed.

(** The conclusion sheet reports "passed [p] of [t] tests": on an analyzer
    built by the constructor the normality tests run without an error,
    [p <= t], at least one test was carried out (the Smirnov test is always
    there) and at most five, at most four above 50 values, where the
    Romanovsky test is left out. *)
Theorem conclusion_counts (lib : Library) (d : list float)
    (a : StatisticalAnalyzer) :
  __init__ lib d = Ok a ->
  exists tests,
    test_normality lib a = Ok tests
    /\ (normal_tests_passed tests <= total_tests tests)%nat
    /\ (1 <= total_tests tests <= 5)%nat
    /\ ((50 < length d)%nat -> (total_tests tests <= 4)%nat).
Proof.
  intros Hinit. destruct (init_results _ _ Hinit) as (_ & Hd & Hn).
  assert (Hne : d <> []) by (intros ->; discriminate Hinit).
  assert (Hlen : (1 <= n a)%nat).
  { rewrite Hn. destruct d; [congruence|simpl; lia]. }
  destruct (test_normality_keys lib a Hlen)
    as (tests & Ht & Hk & _ & _ & _ & Hsm & _).
  destruct (@smirnov_block_ok lib a) as [s Hs]; [now rewrite Hd|].
  rewrite Hs in Hsm. cbn [try_except] in Hsm.
  destruct (tests_counts tests) as (Hle & Hup & Hlow).
  rewrite Hk, Hn in Hup.
  exists tests. split; [exact Ht|]. split; [exact Hle|].
  split; [split; [exact (Hlow _ _ Hsm)|]|].
  - destruct (length d <=? 50)%nat; simpl in Hup; lia.
  - intros H50. destruct (Nat.leb_spec (length d) 50); [lia|].
    simpl in Hup. lia.
Qed.

Lemma conclusion_counts_witness :
  exists a tests,
    __init__ constant_library (map Fin [1; 2; 3; 4; 6]) = Ok a
    /\ test_normality constant_library a = Ok tests
    /\ (normal_tests_passed tests <= total_tests tests)%nat.
Proof.
  destruct (init_nonempty constant_library (Fin 1) (map Fin [2; 3; 4; 6]))
    as [r Hr].
  destruct (@conclusion_counts constant_library _ _ Hr)
    as (tests & Ht & Hle & _).
  eexists. exists tests. split; [exact Hr|]. split; [exact Ht|exact Hle].
Defined.

(** ** The Irwin method on finite values *)









(** ** The interval for the standard deviation *)






(** ** The data entry of the desktop application *)

Section GuiProperties.

Variable float_of : string -> option float.
Variable split_line : string -> option (list string).

Lemma first_number_none (parts : list string) :
  first_number float_of parts = None <->
  forall part, In part parts -> float_of part = None.
Proof.
  induction parts as [|p t IH]; cbn [first_number].
  - split; [intros _ part []|reflexivity].
  - destruct (float_of p) as [v|] eqn:E.
    + split; [discriminate|]. intros H.
      rewrite (H p (or_introl eq_refl)) in E. discriminate.
    + rewrite IH. split.
      * intros H part [<-|Hin]; [exact E|auto].
      * intros H part Hin. apply H. now right.
Qed.

Lemma first_number_in (parts : list string) (v : float) :
  first_number float_of parts = Some v ->
  exists part, In part parts /\ float_of part = Some v.
Proof.
  induction parts as [|p t IH]; cbn [first_number]; [discriminate|].
  destruct (float_of p) as [w|] eqn:E.
  - intros H. injection H as <-. exists p. split; [now left|exact E].
  - intros H. destruct (IH H) as (part & Hin & Hp).
    exists part. split; [now right|exact Hp].
Qed.

(** The value that the application reads from a line is the second column
    when that is a number, and otherwise the first column that is a number;
    a line is left out only when none of its columns is a number. *)
Theorem row_value_second_column_first (parts : list string) :
  row_value float_of parts
  = match nth_error parts 1 with
    | Some p1 =>
        match float_of p1 with
        | Some v => Some v
        | None => first_number float_of parts
        end
    | None => first_number float_of parts
    end
  /\ (row_value float_of parts = None <->
      forall part, In part parts -> float_of part = None).
Proof.
  assert (Heq : row_value float_of parts
                = match nth_error parts 1 with
                  | Some p1 =>
                      match float_of p1 with
                      | Some v => Some v
                      | None => first_number float_of parts
                      end
                  | None => first_number float_of parts
                  end).
  { unfold row_value. destruct parts as [|p0 [|p1 t]];
      cbn [nth_error first_number]; [reflexivity| |].
    - destruct (float_of p0); reflexivity.
    - destruct (float_of p1); [reflexivity|].
      destruct (float_of p0); reflexivity. }
  split; [exact Heq|]. rewrite Heq.
  destruct (nth_error parts 1) as [p1|] eqn:E1;
    [|apply first_number_none].
  destruct (float_of p1) as [v|] eqn:Ef; [|apply first_number_none].
  split; [discriminate|]. intros H.
  rewrite (H p1 (nth_error_In _ _ E1)) in Ef. discriminate.
Qed.

Lemma parse_data_in (lines : list string) (v : float) :
  In v (parse_data float_of split_line lines) ->
  exists line parts part,
    In line lines /\ split_line line = Some parts
    /\ In part parts /\ float_of part = Some v.
Proof.
  induction lines as [|line rest IH]; cbn [parse_data]; [intros []|].
  assert (Hrest : In v (parse_data float_of split_line rest) ->
                  exists line0 parts part,
                    In line0 (line :: rest) /\ split_line line0 = Some parts
                    /\ In part parts /\ float_of part = Some v).
  { intros H. destruct (IH H) as (l0 & ps & p & Hin & Hrest).
    exists l0, ps, p. split; [now right|exact Hrest]. }
  destruct (split_line line) as [parts|] eqn:Es; [|exact Hrest].
  destruct (row_value float_of parts) as [w|] eqn:Er; [|exact Hrest].
  intros [<-|Hin]; [|auto].
  exists line, parts.
  assert (Hp : exists part, In part parts /\ float_of part = Some w).
  { unfold row_value in Er. destruct parts as [|p0 [|p1 t]]; [discriminate| |].
    - destruct (float_of p0) as [u|] eqn:E0.
      + injection Er as <-. exists p0. split; [now left|exact E0].
      + now apply first_number_in.
    - destruct (float_of p1) as [u|] eqn:E1.
      + injection Er as <-. exists p1. split; [right; now left|exact E1].
      + destruct (float_of p0) as [u|] eqn:E0.
        * injection Er as <-. exists p0. split; [now left|exact E0].
        * now apply first_number_in. }
  destruct Hp as (part & Hin & Hf). exists part.
  split; [now left|]. split; [exact Es|]. split; assumption.
Qed.

(** Every value that [parse_data] returns was read, by [float], from a
    column of a line of the text that is neither blank nor a comment, and
    there are at most as many values as lines. *)
Theorem parse_data_values_come_from_text (lines : list string) :
  (forall v, In v (parse_data float_of split_line lines) ->
     exists line parts part,
       In line lines /\ split_line line = Some parts
       /\ In part parts /\ float_of part = Some v)
  /\ (length (parse_data float_of split_line lines) <= length lines)%nat.
Proof.
  split; [intros v; apply parse_data_in|].
  induction lines as [|line rest IH]; cbn [parse_data]; [reflexivity|].
  destruct (split_line line) as [parts|]; [|simpl; lia].
  destruct (row_value float_of parts); simpl; lia.
Qed.


End GuiProperties.

